(** * Workspace: the compilation coordinator of the live editor

    A shallow embedding of [src/components/workspace/Workspace.js]: the
    React component that posts every file to the babel worker, files the
    worker's answers in two caches (one for the player, one for the
    transpiler view), runs the application once every file has been
    transformed, and keeps the compiler and runtime error status.

    JavaScript objects used as maps ([playerCache], [codeCache],
    [state.transpilerCache]) are finite maps holding their own properties;
    reading a property also finds the members every plain object inherits
    from [Object.prototype], and an assignment to ['__proto__'] stores
    nothing.  [props.files] is only ever read and
    enumerated, and is kept as the list of its entries in [Object.keys]
    order.  Styles are left out; of the render functions, what is kept
    is whether a player is mounted behind [this.refs.player] and what the
    editor and transpiler panes are given. *)

From Stdlib Require Import String Ascii ZArith List.
From stdpp Require Import base option list gmap strings.

Local Open Scope string_scope.
Local Open Scope Z_scope.

(** ** Strings *)

(** Whether [s] starts with [pat]. *)
Fixpoint startsWith (s pat : string) {struct pat} : bool :=
  match pat, s with
  | EmptyString, _ => true
  | String a pat', String b s' => Ascii.eqb a b && startsWith s' pat'
  | String _ _, EmptyString => false
  end.

(** [String.prototype.indexOf]: the position of the first occurrence of
    [pat] in [s], or -1. *)
Fixpoint indexOf_from (i : Z) (s pat : string) : Z :=
  if startsWith s pat then i
  else match s with
       | EmptyString => -1
       | String _ s' => indexOf_from (i + 1) s' pat
       end.

Definition indexOf (s pat : string) : Z := indexOf_from 0 s pat.

(** [Array.prototype.indexOf] on an array of strings. *)
Fixpoint Array_indexOf_from (i : Z) (a : list string) (x : string) : Z :=
  match a with
  | [] => -1
  | y :: a' => if String.eqb y x then i else Array_indexOf_from (i + 1) a' x
  end.

Definition Array_indexOf (a : list string) (x : string) : Z :=
  Array_indexOf_from 0 a x.

(** ** Transpiler ids (lines 19-23) *)

Definition transpilerPrefix : string := "@babel-".

Definition getTranspilerId (filename : string) : string :=
  transpilerPrefix +:+ filename.

Definition isTranspilerId (filename : string) : bool :=
  indexOf filename transpilerPrefix =? 0.

(** ** Data *)

(** What [getErrorDetails] returns; the render function reads these three
    members (lines 284, 290, 297). *)
Record ErrorDetails := mkErrorDetails {
  summary : string;
  description : string;
  lineNumber : option Z;
}.

(** The props the component logic reads (lines 82-96). *)
Record Props := mkProps {
  files : list (string * string);
  entry : string;
  initialTab : string;
  panes : list string;
}.

(** [Object.keys] of an object kept as its list of entries. *)
Definition Object_keys (o : list (string * string)) : list string := o.*1.

(** [this.state] (lines 103-111). *)
Record State := mkState {
  compilerError : option ErrorDetails;
  runtimeError : option ErrorDetails;
  showDetails : bool;
  activeTab : string;
  transpilerCache : gmap string string;
  transpilerVisible : bool;
  playerVisible : bool;
}.

(** The component instance: props, state, the two instance caches
    (lines 113-114) and whether [this.refs.player] is set, which is the
    case while a [PlayerFrame] is rendered (line 341). *)
Record Workspace := mkWorkspace {
  props : Props;
  state : State;
  codeCache : gmap string string;
  playerCache : gmap string string;
  refs_player : bool;
}.

(** A request posted to the babel worker: [options] is either absent or
    [{retainLines: b}]. *)
Record Request := mkRequest {
  req_filename : string;
  req_code : string;
  req_options : option bool;
}.

(** The [error] member of a worker response. *)
Record ErrorObject := mkErrorObject { message : string }.

(** A worker response after [JSON.parse] (line 164), with the string
    [filename] the worker gives every response.  [code] is read only when
    [type] is ["code"]; [error] is [None] when the member is missing. *)
Record Message := mkMessage {
  filename : string;
  type : string;
  code : string;
  error : option ErrorObject;
}.

(** What the component does to its collaborators.  [RunApplication] and
    [OnChange] are handed the cache object itself; the effect records its
    contents at the time of the call. *)
Inductive Effect :=
  | PostMessage (request : Request)
  | RunApplication (compiled : gmap string string) (entryFilename : string)
  | OnChange (sources : gmap string string).

Inductive Exception := TypeError.

(** ** Plain objects used as maps *)

(** The members of [Object.prototype]: own properties of no cache, but
    found by [o[k]] on every plain object. *)
Definition Object_prototype_members : list string :=
  ["constructor"; "hasOwnProperty"; "isPrototypeOf"; "propertyIsEnumerable";
   "toLocaleString"; "toString"; "valueOf"; "__proto__";
   "__defineGetter__"; "__defineSetter__";
   "__lookupGetter__"; "__lookupSetter__"].

Definition inheritsMember (k : string) : bool :=
  existsb (String.eqb k) Object_prototype_members.

(** A name that is not a member of [Object.prototype]. *)
Definition plainName (k : string) : Prop := inheritsMember k = false.

(** What [o[k]] finds: an own string, an inherited member, or nothing. *)
Inductive Member :=
  | Undefined
  | Inherited
  | Own (v : string).

Definition Object_member (o : gmap string string) (k : string) : Member :=
  match o !! k with
  | Some v => Own v
  | None => if inheritsMember k then Inherited else Undefined
  end.

(** [o[k] = v] for a string [v]: the setter behind ['__proto__'] ignores
    strings, every other name becomes or stays an own property. *)
Definition assignMember (k v : string) (o : gmap string string)
  : gmap string string :=
  if String.eqb k "__proto__" then o else <[k := v]> o.

(** ** Handlers as state transformers *)

Inductive Completion (A : Type) :=
  | Normal (a : A)
  | Throw (e : Exception).
Arguments Normal {A} a.
Arguments Throw {A} e.

(** A method of the component: it may update the instance, leaves a trace
    of effects, and returns or throws.  What was done before an exception
    stays done. *)
Definition Handler (A : Type) : Type :=
  Workspace → Completion A * Workspace * list Effect.

#[global] Instance Handler_ret : MRet Handler :=
  λ A a w, (Normal a, w, []).

#[global] Instance Handler_bind : MBind Handler :=
  λ A B f m w,
    match m w with
    | (Normal a, w1, e1) =>
        match f a w1 with
        | (r, w2, e2) => (r, w2, (e1 ++ e2)%list)
        end
    | (Throw e, w1, e1) => (Throw e, w1, e1)
    end.

Definition this : Handler Workspace := λ w, (Normal w, w, []).

Definition throw {A} (e : Exception) : Handler A := λ w, (Throw e, w, []).

Definition emit (e : Effect) : Handler unit := λ w, (Normal tt, w, [e]).

(** [this.setState(...)]: the update is merged into the state. *)
Definition setState (f : State → State) : Handler unit :=
  λ w, (Normal tt,
        mkWorkspace (props w) (f (state w)) (codeCache w) (playerCache w)
                    (refs_player w),
        []).

Definition setPlayerCache (k v : string) : Handler unit :=
  λ w, (Normal tt,
        mkWorkspace (props w) (state w) (codeCache w)
                    (assignMember k v (playerCache w)) (refs_player w),
        []).

Definition setCodeCache (k v : string) : Handler unit :=
  λ w, (Normal tt,
        mkWorkspace (props w) (state w) (assignMember k v (codeCache w))
                    (playerCache w) (refs_player w),
        []).

(** State updates, one per member written by the component. *)
Definition set_compilerError (v : option ErrorDetails) (s : State) : State :=
  mkState v (runtimeError s) (showDetails s) (activeTab s)
          (transpilerCache s) (transpilerVisible s) (playerVisible s).

Definition set_runtimeError (v : option ErrorDetails) (s : State) : State :=
  mkState (compilerError s) v (showDetails s) (activeTab s)
          (transpilerCache s) (transpilerVisible s) (playerVisible s).

Definition set_showDetails (v : bool) (s : State) : State :=
  mkState (compilerError s) (runtimeError s) v (activeTab s)
          (transpilerCache s) (transpilerVisible s) (playerVisible s).

Definition set_activeTab (v : string) (s : State) : State :=
  mkState (compilerError s) (runtimeError s) (showDetails s) v
          (transpilerCache s) (transpilerVisible s) (playerVisible s).

Definition set_transpilerCache (v : gmap string string) (s : State) : State :=
  mkState (compilerError s) (runtimeError s) (showDetails s) (activeTab s)
          v (transpilerVisible s) (playerVisible s).

(** Truthiness of [cache[filename]]: [undefined] and the empty string are
    falsy, every other string is truthy. *)
Definition truthy (v : option string) : bool :=
  match v with
  | Some (String _ _) => true
  | _ => false
  end.

(** Truthiness of what [o[k]] finds: an inherited member is a function
    or an object, hence truthy. *)
Definition truthyMember (m : Member) : bool :=
  match m with
  | Own v => truthy (Some v)
  | Inherited => true
  | Undefined => false
  end.

(** ** The event loop *)

(** What can happen to a mounted component.  [Render p] is React
    rendering the component with props [p]: a [PlayerFrame] is mounted
    behind [this.refs.player] when ['player'] is among the panes
    (lines 335-367).  [renderPane] is a plain object: under a pane name
    other than its three keys line 365 calls what the name inherits from
    [Object.prototype], if it can be called with the index alone and gives
    something React can render, and throws (or has React throw) otherwise;
    the instance is then left with the new props and the player it had.
    [CallRunApplication] is a call of the public
    [runApplication] method from outside. *)
Inductive Event :=
  | Render (p : Props)
  | DidMount (navigator : bool)
  | WorkerMessage (data : Message)
  | CodeChange (code : string)
  | ToggleDetails (showDetails : bool)
  | PlayerRun
  | PlayerError (message : string)
  | ClickTab (tab : string)
  | CallRunApplication.

Definition rendersPane (pane : string) : bool :=
  existsb (String.eqb pane)
    ["editor"; "transpiler"; "player";
     "hasOwnProperty"; "isPrototypeOf"; "propertyIsEnumerable";
     "toLocaleString"; "toString"; "__lookupGetter__"; "__lookupSetter__"].

Definition render (p : Props) : Handler unit :=
  λ w, if forallb rendersPane (panes p)
       then (Normal tt,
             mkWorkspace p (state w) (codeCache w) (playerCache w)
                         (0 <=? Array_indexOf (panes p) "player"),
             [])
       else (Throw TypeError,
             mkWorkspace p (state w) (codeCache w) (playerCache w)
                         (refs_player w),
             []).

Section Component.

(** [getErrorDetails] comes from [utils/ErrorMessage]. *)
Context (getErrorDetails : string → ErrorDetails).

(** The constructor (lines 98-117). *)
Definition constructor (p : Props) : Workspace :=
  mkWorkspace p
    (mkState None None false (initialTab p) ∅
       (0 <=? Array_indexOf (panes p) "transpiler")
       (0 <=? Array_indexOf (panes p) "player"))
    ∅ ∅ false.

Definition postMessage (r : Request) : Handler unit := emit (PostMessage r).

(** Lines 129-148, for one entry of [files]. *)
Definition compileFile (f : string * string) : Handler unit :=
  let '(filename, code) := f in
  setCodeCache filename code;;
  w ← this;
  (if playerVisible (state w)
   then postMessage (mkRequest filename code (Some true))
   else mret tt);;
  (if transpilerVisible (state w)
   then postMessage (mkRequest (getTranspilerId filename) code None)
   else mret tt).

Fixpoint forEach {A} (f : A → Handler unit) (l : list A) : Handler unit :=
  match l with
  | [] => mret tt
  | x :: l' => f x;; forEach f l'
  end.

(** [componentDidMount] (lines 123-150); [navigator] tells whether the
    global of that name is defined. *)
Definition componentDidMount (navigator : bool) : Handler unit :=
  if navigator then
    w ← this;
    forEach compileFile (files (props w))
  else mret tt.

(** [runApplication] (lines 152-158). *)
Definition runApplication : Handler unit :=
  w ← this;
  if refs_player w
  then emit (RunApplication (playerCache w) (entry (props w)))
  else throw TypeError.

(** [updateStatus] (lines 187-201). *)
Definition updateStatus (type : string) (error : option ErrorObject)
  : Handler unit :=
  if String.eqb type "code" then
    setState (λ s, set_showDetails false (set_compilerError None s))
  else if String.eqb type "error" then
    match error with
    | Some e =>
        setState (set_compilerError (Some (getErrorDetails (message e))))
    | None => throw TypeError
    end
  else mret tt.

(** The readiness test of line 180. *)
Definition everyFileTransformed (files : list (string * string))
    (playerCache : gmap string string) : bool :=
  forallb (λ filename, truthyMember (Object_member playerCache filename))
          (Object_keys files).

(** [onBabelWorkerMessage] (lines 160-185).  The object built for the
    transpiler cache gets its new key only when the key starts with the
    marker, so never ['__proto__']. *)
Definition onBabelWorkerMessage (data : Message) : Handler unit :=
  w0 ← this;
  let files := files (props w0) in
  let transpilerCache := transpilerCache (state w0) in
  updateStatus (type data) (error data);;
  if String.eqb (type data) "code" then
    if isTranspilerId (filename data) then
      setState (set_transpilerCache
                  (<[filename data := code data]> transpilerCache))
    else
      setPlayerCache (filename data) (code data);;
      w ← this;
      if everyFileTransformed files (playerCache w)
      then runApplication
      else mret tt
  else mret tt.

(** [onCodeChange] (lines 203-223). *)
Definition onCodeChange (code : string) : Handler unit :=
  w ← this;
  let activeTab := activeTab (state w) in
  (if playerVisible (state w)
   then postMessage (mkRequest activeTab code (Some true))
   else mret tt);;
  (if transpilerVisible (state w)
   then postMessage (mkRequest (getTranspilerId activeTab) code None)
   else mret tt);;
  setCodeCache activeTab code;;
  w' ← this;
  emit (OnChange (codeCache w')).

(** Lines 225-241. *)
Definition onToggleDetails (showDetails : bool) : Handler unit :=
  setState (set_showDetails showDetails).

Definition onPlayerRun : Handler unit :=
  setState (set_runtimeError None).

Definition onPlayerError (message : string) : Handler unit :=
  setState (set_runtimeError (Some (getErrorDetails message))).

Definition onClickTab (tab : string) : Handler unit :=
  setState (set_activeTab tab).

Definition dispatch (ev : Event) : Handler unit :=
  match ev with
  | Render p => render p
  | DidMount navigator => componentDidMount navigator
  | WorkerMessage data => onBabelWorkerMessage data
  | CodeChange code => onCodeChange code
  | ToggleDetails showDetails => onToggleDetails showDetails
  | PlayerRun => onPlayerRun
  | PlayerError message => onPlayerError message
  | ClickTab tab => onClickTab tab
  | CallRunApplication => runApplication
  end.

(** Events are handled one at a time; an exception escaping a handler ends
    that handler only, and the next event finds the instance as the
    handler left it. *)
Fixpoint deliver (evs : list Event) (w : Workspace) : Workspace * list Effect :=
  match evs with
  | [] => (w, [])
  | ev :: evs' =>
      match dispatch ev w with
      | (_, w1, e1) =>
          match deliver evs' w1 with
          | (w2, e2) => (w2, (e1 ++ e2)%list)
          end
      end
  end.

End Component.

(** ** Observations *)

(** The runs asked of the player in a trace of effects. *)
Definition runs (effs : list Effect) : list (gmap string string * string) :=
  omap (λ e, match e with
             | RunApplication compiled entryFilename =>
                 Some (compiled, entryFilename)
             | _ => None
             end) effs.

(** The instance after a handler, whether it returned or threw, and the
    effects it left. *)
Definition after {A} (h : Handler A) (w : Workspace) : Workspace := (h w).1.2.
Definition effects {A} (h : Handler A) (w : Workspace) : list Effect := (h w).2.
Definition completion {A} (h : Handler A) (w : Workspace) : Completion A :=
  (h w).1.1.

(** The state after the status update of a successful response. *)
Definition cleared (s : State) : State :=
  set_showDetails false (set_compilerError None s).

(** The instance after a successful response for the player. *)
Definition written (data : Message) (w : Workspace) : Workspace :=
  mkWorkspace (props w) (cleared (state w)) (codeCache w)
    (assignMember (filename data) (code data) (playerCache w))
    (refs_player w).

(** The cache a response with this filename is written to. *)
Definition cacheFor (filename : string) (w : Workspace) : gmap string string :=
  if isTranspilerId filename then transpilerCache (state w) else playerCache w.

(** A handler that leaves the props and the player cache alone and asks
    for no run. *)
Definition sparesPlayer {A} (h : Handler A) : Prop :=
  ∀ w, props (after h w) = props w
       ∧ playerCache (after h w) = playerCache w
       ∧ runs (effects h w) = [].

(** An event that keeps the player cache within the file set [declared]:
    the file set stays the same, successful player responses are for its
    files, and nobody calls [runApplication] from outside. *)
Definition keepsToFiles (declared : list (string * string)) (ev : Event)
  : Prop :=
  match ev with
  | Render p => files p = declared
  | WorkerMessage data =>
      type data = "code" → isTranspilerId (filename data) = false →
      filename data ∈ Object_keys declared
  | CallRunApplication => False
  | _ => True
  end.

(** ** What the panes are given *)

(** [o[k]] for an object kept as its list of entries. *)
Fixpoint Object_get (o : list (string * string)) (k : string) : Member :=
  match o with
  | [] => if inheritsMember k then Inherited else Undefined
  | (k', v) :: o' => if String.eqb k' k then Own v else Object_get o' k
  end.

(** [compilerError || runtimeError] (line 249): an [ErrorDetails] object is
    truthy, [null] is not. *)
Definition shownError (s : State) : option ErrorDetails :=
  match compilerError s with
  | Some e => Some e
  | None => runtimeError s
  end.

(** The line feed of ['\n']. *)
Definition newline : string := String (ascii_of_nat 10) EmptyString.

(** What [renderEditor] (lines 243-310) hands to the widgets, as far as it
    depends on the instance.  The header and the full-screen button depend
    on props alone and are left out, as are all styles.  [tabs] is [None]
    when no [Tabs] element is rendered, [overlay] when no [Overlay] is;
    [errorLineNumber] is [None] for [false]. *)
Record EditorPane := mkEditorPane {
  tabs : option (list string * string);
  editor_key : string;
  editor_initialValue : Member;
  editor_filename : string;
  editor_errorLineNumber : option (option Z);
  overlay : option (bool * string);
  status_text : string;
  status_isError : bool;
  button_active : bool;
  button_isError : bool;
}.

Definition renderEditor (w : Workspace) : EditorPane :=
  let files := files (props w) in
  let filenames := Object_keys files in
  let error := shownError (state w) in
  let isError := bool_decide (is_Some error) in
  mkEditorPane
    (if (1 <? Z.of_nat (length filenames))
     then Some (filenames, activeTab (state w)) else None)
    (activeTab (state w))
    (Object_get files (activeTab (state w)))
    (activeTab (state w))
    (match error with Some e => Some (lineNumber e) | None => None end)
    (if showDetails (state w)
     then Some (isError,
                match error with
                | Some e => description e +:+ newline +:+ newline
                | None => ""
                end)
     else None)
    (match error with Some e => summary e | None => "No Errors" end)
    isError
    (showDetails (state w))
    isError.

(** What [renderTranspiler] (lines 312-333) hands to its read-only editor;
    [value] is [None] for [undefined]. *)
Record TranspilerPane := mkTranspilerPane {
  transpiler_key : string;
  transpiler_readOnly : bool;
  transpiler_value : option string;
  transpiler_filename : string;
}.

Definition renderTranspiler (w : Workspace) : TranspilerPane :=
  let activeTab := activeTab (state w) in
  mkTranspilerPane
    (getTranspilerId activeTab) true
    (transpilerCache (state w) !! getTranspilerId activeTab)
    (getTranspilerId activeTab).

(** The requests [componentDidMount] and [onCodeChange] post for one
    source, for the panes that are visible (lines 134-147, 206-219). *)
Definition requestsFor (s : State) (filename code : string) : list Effect :=
  ((if playerVisible s
    then [PostMessage (mkRequest filename code (Some true))] else [])
   ++ (if transpilerVisible s
       then [PostMessage (mkRequest (getTranspilerId filename) code None)]
       else []))%list.

(** A successful response for the player with non-empty code. *)
Definition playerSuccess (data : Message) : Prop :=
  type data = "code" ∧ isTranspilerId (filename data) = false
  ∧ code data ≠ "".

(** The source cache after [componentDidMount] has gone through [files]. *)
Definition cacheSources (files : list (string * string))
    (codeCache : gmap string string) : gmap string string :=
  foldl (λ cache f, assignMember f.1 f.2 cache) codeCache files.

(** ** Sample instances *)

(** A stand-in for [getErrorDetails] in the examples. *)
Definition plainErrorDetails (message : string) : ErrorDetails :=
  mkErrorDetails message message None.

Definition sampleProps : Props :=
  mkProps [("a.js", "export default 1"); ("b.js", "export default 2")]
          "a.js" "a.js" ["editor"; "transpiler"; "player"].

Definition codeMessage (filename code : string) : Message :=
  mkMessage filename "code" code None.

Definition errorMessage (filename message : string) : Message :=
  mkMessage filename "error" "" (Some (mkErrorObject message)).

Definition mounted (p : Props) : Workspace :=
  (deliver plainErrorDetails [Render p; DidMount true] (constructor p)).1.

Definition oneFileProps : Props :=
  mkProps [("a.js", "export default 1")] "a.js" "a.js" ["editor"; "player"].

Definition emptyFileProps : Props :=
  mkProps [("index.js", "")] "index.js" "index.js" ["editor"; "player"].

Definition noPlayerProps : Props :=
  mkProps [("a.js", "export default 1")] "a.js" "a.js"
          ["editor"; "transpiler"].

Definition halfCompiled : Workspace :=
  (deliver plainErrorDetails
     [WorkerMessage (codeMessage "a.js" "A")] (mounted sampleProps)).1.

Definition fullyCompiled : Workspace :=
  (deliver plainErrorDetails
     [WorkerMessage (codeMessage "a.js" "A");
      WorkerMessage (codeMessage "b.js" "B")] (mounted sampleProps)).1.

Definition failedAfterCompiled : Workspace :=
  (deliver plainErrorDetails
     [WorkerMessage (errorMessage "a.js" "SyntaxError: Unexpected token (1:8)")]
     fullyCompiled).1.

Definition detailsShown : Workspace :=
  (deliver plainErrorDetails [ToggleDetails true] (mounted sampleProps)).1.

Definition foreignCached : Workspace :=
  (deliver plainErrorDetails
     [WorkerMessage (codeMessage "b.js" "B")] (mounted oneFileProps)).1.

Definition noFileProps : Props :=
  mkProps [] "index.js" "index.js" ["editor"; "player"].

Definition markerProps : Props :=
  mkProps [("@babel-polyfill.js", "export default 0")]
          "@babel-polyfill.js" "@babel-polyfill.js" ["editor"; "player"].

Definition crashedAfterCompiled : Workspace :=
  (deliver plainErrorDetails
     [PlayerError "ReferenceError: x is not defined"] fullyCompiled).1.

Definition memberProps : Props :=
  mkProps [("a.js", "export default 1"); ("constructor", "export default 2")]
          "a.js" "a.js" ["editor"; "player"].

Definition unknownPaneProps : Props :=
  mkProps [("a.js", "export default 1")] "a.js" "a.js" ["editor"; "console"].

(** * Properties *)

(** ** Transpiler ids *)

Lemma substring_append_length (p s : string) :
  substring (String.length p) (String.length s) (p +:+ s) = s.
Proof.
  induction p as [|a p IH]; [|exact IH].
  change (substring 0 (String.length s) s = s).
  induction s as [|b s IHs]; simpl; [reflexivity | by rewrite IHs].
Qed.

Lemma append_inj_r (p s t : string) : p +:+ s = p +:+ t → s = t.
Proof.
  induction p as [|a p IH]; simpl; intros H; [exact H|].
  injection H as H. by apply IH.
Qed.

Lemma startsWith_split (s pat : string) :
  startsWith s pat = true → ∃ r, s = pat +:+ r.
Proof.
  revert s. induction pat as [|a pat IH]; intros s H.
  - by exists s.
  - destruct s as [|b s]; simpl in H; [discriminate|].
    apply andb_true_iff in H as [Hab H]. apply Ascii.eqb_eq in Hab as ->.
    destruct (IH s H) as [r ->]. by exists r.
Qed.

Lemma startsWith_append (pat r : string) : startsWith (pat +:+ r) pat = true.
Proof.
  induction pat as [|a pat IH]; simpl; [reflexivity|].
  by rewrite Ascii.eqb_refl, IH.
Qed.

Lemma indexOf_from_range (i : Z) (s pat : string) :
  indexOf_from i s pat = -1 ∨ i ≤ indexOf_from i s pat.
Proof.
  revert i. induction s as [|b s IH]; intros i; simpl.
  - destruct (startsWith "" pat); [right; lia | by left].
  - destruct (startsWith (String b s) pat); [right; lia|].
    destruct (IH (i + 1)) as [->| ?]; [by left | right; lia].
Qed.

Lemma indexOf_zero (s pat : string) :
  indexOf s pat = 0 ↔ startsWith s pat = true.
Proof.
  unfold indexOf. destruct s as [|b s]; simpl.
  - destruct (startsWith "" pat); [done | split; discriminate].
  - destruct (startsWith (String b s) pat); [done|].
    split; [|discriminate]. intros H.
    destruct (indexOf_from_range (0 + 1) s pat) as [Hr|Hr]; lia.
Qed.

Lemma isTranspilerId_getTranspilerId filename :
  isTranspilerId (getTranspilerId filename) = true.
Proof.
  unfold isTranspilerId. apply Z.eqb_eq, indexOf_zero, startsWith_append.
Qed.

Lemma isTranspilerId_inv filename :
  isTranspilerId filename = true → ∃ name, filename = getTranspilerId name.
Proof.
  unfold isTranspilerId. intros H.
  apply Z.eqb_eq, indexOf_zero in H. by apply startsWith_split.
Qed.

(** C4: a filename that does not contain the marker gets a transpiler id
    from which it is recovered by stripping the marker; the id is
    recognised as a transpiler id and the filename is not; and no other
    filename gets the same id. *)
Theorem transpiler_id_round_trip (filename : string) :
  indexOf filename transpilerPrefix = -1 →
  substring (String.length transpilerPrefix) (String.length filename)
            (getTranspilerId filename) = filename
  ∧ isTranspilerId (getTranspilerId filename) = true
  ∧ isTranspilerId filename = false
  ∧ (∀ other, getTranspilerId other = getTranspilerId filename →
              other = filename)
  ∧ (∀ other, indexOf other transpilerPrefix = -1 →
              other ≠ getTranspilerId filename).
Proof.
  intros Hfree. split; [|split; [|split; [|split]]].
  - apply substring_append_length.
  - apply isTranspilerId_getTranspilerId.
  - unfold isTranspilerId. by rewrite Hfree.
  - intros other. apply append_inj_r.
  - intros other Hother ->.
    pose proof (isTranspilerId_getTranspilerId filename) as Hid.
    unfold isTranspilerId in Hid. by rewrite Hother in Hid.
Qed.

Lemma transpiler_id_round_trip_witness :
  indexOf "index.js" transpilerPrefix = -1
  ∧ getTranspilerId "index.js" = "@babel-index.js"
  ∧ substring (String.length transpilerPrefix) (String.length "index.js")
              (getTranspilerId "index.js") = "index.js"
  ∧ isTranspilerId "index.js" = false.
Proof.
  assert (indexOf "index.js" transpilerPrefix = -1) as H
    by (vm_compute; reflexivity).
  destruct (transpiler_id_round_trip "index.js" H) as (H1 & _ & H3 & _).
  split; [exact H|]. split; [reflexivity|]. split; [exact H1 | exact H3].
Defined.

(** ** The readiness test *)

Lemma truthy_Some (v : option string) :
  truthy v = true ↔ ∃ c, v = Some c ∧ c ≠ "".
Proof.
  destruct v as [[|a c]|]; simpl; split; try discriminate; try done.
  - intros (c & [= <-] & Hc). done.
  - intros _. by eexists.
  - intros (c & [=] & _).
Qed.

Lemma plainName_not_proto k : plainName k → String.eqb k "__proto__" = false.
Proof.
  intros Hk. destruct (String.eqb k "__proto__") eqn:Heq; [|done].
  apply String.eqb_eq in Heq as ->. discriminate Hk.
Qed.

Lemma assignMember_plain k v (o : gmap string string) :
  plainName k → assignMember k v o = <[k := v]> o.
Proof. intros Hk. unfold assignMember. by rewrite plainName_not_proto. Qed.

Lemma assignMember_lookup_ne k v (o : gmap string string) f :
  k ≠ f → assignMember k v o !! f = o !! f.
Proof.
  intros Hne. unfold assignMember.
  destruct (String.eqb k "__proto__"); [done|]. by apply lookup_insert_ne.
Qed.

Lemma assignMember_dom k v (o : gmap string string) f :
  f ∈ dom (assignMember k v o) → f = k ∨ f ∈ dom o.
Proof.
  unfold assignMember. destruct (String.eqb k "__proto__"); [by right|].
  rewrite dom_insert_L. intros [Hf|Hf]%elem_of_union; [left|by right].
  by apply elem_of_singleton in Hf.
Qed.

Lemma truthyMember_plain (o : gmap string string) k :
  plainName k → truthyMember (Object_member o k) = truthy (o !! k).
Proof.
  intros Hk. unfold Object_member. destruct (o !! k); [done|].
  by rewrite Hk.
Qed.

Lemma truthyMember_own (o : gmap string string) k v :
  o !! k = Some v → truthyMember (Object_member o k) = truthy (Some v).
Proof. intros Hk. unfold Object_member. by rewrite Hk. Qed.

Lemma isTranspilerId_plainName f : isTranspilerId f = true → plainName f.
Proof.
  intros Hid. unfold plainName, inheritsMember.
  apply not_true_is_false. intros Hin.
  apply existsb_exists in Hin as (name & Hname & Heq).
  apply String.eqb_eq in Heq as <-.
  unfold Object_prototype_members in Hname. simpl in Hname.
  repeat (destruct Hname as [<-|Hname]; [discriminate Hid|]). done.
Qed.

Lemma everyFileTransformed_members files (cache : gmap string string) :
  everyFileTransformed files cache = true ↔
  ∀ f, f ∈ Object_keys files → truthyMember (Object_member cache f) = true.
Proof.
  unfold everyFileTransformed. rewrite forallb_forall. split.
  - intros H f Hf. apply H, list_elem_of_In, Hf.
  - intros H f Hf. apply H, list_elem_of_In, Hf.
Qed.

Lemma everyFileTransformed_true files (cache : gmap string string) :
  Forall plainName (Object_keys files) →
  everyFileTransformed files cache = true ↔
  ∀ f, f ∈ Object_keys files → ∃ c, cache !! f = Some c ∧ c ≠ "".
Proof.
  intros Hplain. rewrite everyFileTransformed_members.
  rewrite Forall_forall in Hplain. split.
  - intros H f Hf. apply truthy_Some. rewrite <- truthyMember_plain; auto.
  - intros H f Hf. rewrite truthyMember_plain by auto.
    apply truthy_Some; auto.
Qed.

Lemma everyFileTransformed_dom files (cache : gmap string string) :
  Forall plainName (Object_keys files) →
  everyFileTransformed files cache = true →
  list_to_set (Object_keys files) ⊆@{gset string} dom cache.
Proof.
  intros Hplain Hr f Hf. apply elem_of_list_to_set in Hf.
  destruct (proj1 (everyFileTransformed_true _ _ Hplain) Hr f Hf)
    as (c & Hc & _).
  apply elem_of_dom. by eexists.
Qed.

Lemma everyFileTransformed_false files (cache : gmap string string) f :
  f ∈ Object_keys files → truthyMember (Object_member cache f) = false →
  everyFileTransformed files cache = false.
Proof.
  intros Hf Hfalsy. apply not_true_is_false. intros H.
  pose proof (proj1 (everyFileTransformed_members _ _) H f Hf) as Hc.
  congruence.
Qed.

Lemma everyFileTransformed_assign_other files (cache : gmap string string)
    k v :
  k ∉ Object_keys files →
  everyFileTransformed files (assignMember k v cache) =
  everyFileTransformed files cache.
Proof.
  intros Hk. unfold everyFileTransformed.
  induction (Object_keys files) as [|f keys IH]; [reflexivity|].
  apply not_elem_of_cons in Hk as [Hne Hk]. simpl.
  unfold Object_member at 1 3. by rewrite assignMember_lookup_ne, IH.
Qed.

(** ** What one worker response does *)

Ltac step_handler :=
  cbv [onBabelWorkerMessage updateStatus runApplication mbind mret
       Handler_bind Handler_ret this throw emit setState setPlayerCache
       after effects completion].

Section Response.

Context (getErrorDetails : string → ErrorDetails).

Abbreviation handle := (onBabelWorkerMessage getErrorDetails).

Lemma handle_error w data e :
  type data = "error" → error data = Some e →
  handle data w =
    (Normal tt,
     mkWorkspace (props w)
       (set_compilerError (Some (getErrorDetails (message e))) (state w))
       (codeCache w) (playerCache w) (refs_player w),
     []).
Proof.
  intros Ht He. step_handler. rewrite Ht, He. reflexivity.
Qed.

Lemma handle_error_missing w data :
  type data = "error" → error data = None →
  handle data w = (Throw TypeError, w, []).
Proof.
  intros Ht He. step_handler. rewrite Ht, He. reflexivity.
Qed.

Lemma handle_other w data :
  type data ≠ "code" → type data ≠ "error" →
  handle data w = (Normal tt, w, []).
Proof.
  intros Hc He. step_handler.
  apply String.eqb_neq in Hc, He. rewrite Hc, He. reflexivity.
Qed.

Lemma handle_transpiler w data :
  type data = "code" → isTranspilerId (filename data) = true →
  handle data w =
    (Normal tt,
     mkWorkspace (props w)
       (set_transpilerCache
          (<[filename data := code data]> (transpilerCache (state w)))
          (cleared (state w)))
       (codeCache w) (playerCache w) (refs_player w),
     []).
Proof.
  intros Ht Hp. step_handler. rewrite Ht, Hp. reflexivity.
Qed.

Lemma handle_player w data :
  type data = "code" → isTranspilerId (filename data) = false →
  handle data w =
    if everyFileTransformed (files (props w)) (playerCache (written data w))
    then if refs_player w
         then (Normal tt, written data w,
               [RunApplication (playerCache (written data w))
                               (entry (props w))])
         else (Throw TypeError, written data w, [])
    else (Normal tt, written data w, []).
Proof.
  intros Ht Hp. step_handler. rewrite Ht, Hp. unfold written. cbn.
  destruct (everyFileTransformed _ _); [|reflexivity].
  destruct (refs_player w); reflexivity.
Qed.

(** The five ways a response can go: a success for the transpiler view, a
    success for the player (ready with a player, ready without one, not
    ready), a failure with or without its error object, anything else. *)
Ltac response_cases w data :=
  unfold after, effects, completion;
  destruct (decide (type data = "code")) as [?Hcode|?Hcode];
  [ destruct (isTranspilerId (filename data)) eqn:?Hid;
    [ rewrite (handle_transpiler w data) by done
    | rewrite (handle_player w data) by done;
      destruct (everyFileTransformed (files (props w))
                  (playerCache (written data w))) eqn:?Hready;
      [ destruct (refs_player w) eqn:?Hplayer | ] ]
  | destruct (decide (type data = "error")) as [?Herror|?Herror];
    [ let e := fresh "e" in
      destruct (error data) as [e|] eqn:?Hobject;
      [ rewrite (handle_error w data e) by done
      | rewrite (handle_error_missing w data) by done ]
    | rewrite (handle_other w data) by done ] ].

(** Every response leaves either nothing or a single run behind, and a run
    only after a successful response for the player that passes the
    readiness test. *)
Lemma handle_effects w data :
  effects (handle data) w = [] ∨
  (type data = "code" ∧ isTranspilerId (filename data) = false
   ∧ everyFileTransformed (files (props w))
       (assignMember (filename data) (code data) (playerCache w)) = true
   ∧ refs_player w = true
   ∧ effects (handle data) w =
       [RunApplication (assignMember (filename data) (code data) (playerCache w))
                       (entry (props w))]).
Proof.
  response_cases w data; try (by left). by right.
Qed.

(** The repeat trigger: a successful response for the player runs the
    application whenever the readiness test passes after the write,
    whether or not it passed before. *)
Lemma handle_runs_when_ready w data :
  type data = "code" → isTranspilerId (filename data) = false →
  refs_player w = true →
  everyFileTransformed (files (props w))
    (assignMember (filename data) (code data) (playerCache w)) = true →
  handle data w =
    (Normal tt, written data w,
     [RunApplication (assignMember (filename data) (code data) (playerCache w))
                     (entry (props w))]).
Proof.
  intros Hc Hp Hm Hr. rewrite handle_player by done. simpl.
  by rewrite Hr, Hm.
Qed.

(** C1, as the code has it: when a response triggers a run, the map handed
    to the player is the whole player cache as the write left it.  For
    declared files and a response filename that do not name members of
    [Object.prototype], its keys include every declared file, and are
    exactly the declared files if and only if neither the cache nor the
    response brought a key from outside the declared files. *)
Theorem run_passes_whole_cache w data compiled entryFilename :
  Forall plainName (Object_keys (files (props w))) →
  plainName (filename data) →
  RunApplication compiled entryFilename ∈ effects (handle data) w →
  compiled = playerCache (after (handle data) w)
  ∧ compiled = <[filename data := code data]> (playerCache w)
  ∧ entryFilename = entry (props w)
  ∧ list_to_set (Object_keys (files (props w))) ⊆@{gset string} dom compiled
  ∧ (dom compiled =@{gset string} list_to_set (Object_keys (files (props w)))
     ↔ dom (playerCache w) ∪ {[filename data]}
         ⊆@{gset string} list_to_set (Object_keys (files (props w)))).
Proof.
  intros Hplain Hname Hrun.
  destruct (handle_effects w data) as [Hnone|(Hc & Hp & Hr & Hm & Heff)].
  { rewrite Hnone in Hrun. by apply elem_of_nil in Hrun. }
  rewrite Heff in Hrun. apply list_elem_of_singleton in Hrun.
  injection Hrun as -> ->.
  pose proof (everyFileTransformed_dom _ _ Hplain Hr) as Hsub.
  split; [|split; [by apply assignMember_plain|split; [done|split; [done|]]]].
  - unfold after. by rewrite handle_runs_when_ready.
  - rewrite assignMember_plain in * by done. rewrite dom_insert_L in *.
    split.
    + intros <- f Hf. apply elem_of_union. apply elem_of_union in Hf.
      tauto.
    + intros Hle. apply (anti_symm (⊆)); [|done].
      intros f Hf. apply Hle, elem_of_union. apply elem_of_union in Hf.
      tauto.
Qed.

Lemma handle_success_cached w data :
  type data = "code" → plainName (filename data) →
  cacheFor (filename data) (after (handle data) w) !! filename data =
  Some (code data).
Proof.
  intros Hc Hname. unfold cacheFor, after.
  destruct (isTranspilerId (filename data)) eqn:Hp.
  - rewrite handle_transpiler by done. simpl. apply lookup_insert_eq.
  - rewrite handle_player by done.
    assert (playerCache (written data w) !! filename data = Some (code data))
      as Hwritten.
    { simpl. rewrite assignMember_plain by done. apply lookup_insert_eq. }
    destruct (everyFileTransformed _ _); [|done].
    by destruct (refs_player w).
Qed.

(** C3: a response whose filename is a transpiler id leaves the player
    cache, the source cache and the outcome of the readiness test as they
    were, has no effect outside the component (so no run), and, when it is
    a success, is written to the transpiler cache under its filename. *)
Theorem transpiler_response_spares_player w data :
  isTranspilerId (filename data) = true →
  playerCache (after (handle data) w) = playerCache w
  ∧ codeCache (after (handle data) w) = codeCache w
  ∧ everyFileTransformed (files (props (after (handle data) w)))
      (playerCache (after (handle data) w)) =
    everyFileTransformed (files (props w)) (playerCache w)
  ∧ effects (handle data) w = []
  ∧ transpilerCache (state (after (handle data) w)) =
    if String.eqb (type data) "code"
    then <[filename data := code data]> (transpilerCache (state w))
    else transpilerCache (state w).
Proof.
  intros Hp. response_cases w data; try congruence;
    try (rewrite Hcode; done);
    apply String.eqb_neq in Hcode; by rewrite Hcode.
Qed.

(** C5, as the code has it: a failure response stores the parsed error
    and leaves [showDetails] as it was; the next successful response, for
    whatever file and variant, clears the error and hides the details. *)
Theorem failure_then_success_status w failure e success :
  type failure = "error" → error failure = Some e →
  type success = "code" →
  let w1 := after (handle failure) w in
  let w2 := after (handle success) w1 in
  compilerError (state w1) = Some (getErrorDetails (message e))
  ∧ showDetails (state w1) = showDetails (state w)
  ∧ compilerError (state w2) = None
  ∧ showDetails (state w2) = false.
Proof.
  intros Hf He Hs w1 w2. subst w2 w1. unfold after.
  rewrite (handle_error _ _ e) by done. simpl.
  split; [done|]. split; [done|].
  destruct (isTranspilerId (filename success)) eqn:Hp.
  - by rewrite handle_transpiler.
  - rewrite handle_player by done.
    destruct (everyFileTransformed _ _); [|done].
    simpl. by destruct (refs_player w).
Qed.

(** C6: a failure response changes neither cache and runs nothing; all it
    does is store the parsed error. *)
Theorem failure_leaves_caches w data :
  type data = "error" →
  playerCache (after (handle data) w) = playerCache w
  ∧ transpilerCache (state (after (handle data) w)) =
    transpilerCache (state w)
  ∧ codeCache (after (handle data) w) = codeCache w
  ∧ effects (handle data) w = []
  ∧ after (handle data) w =
    match error data with
    | Some e =>
        mkWorkspace (props w)
          (set_compilerError (Some (getErrorDetails (message e))) (state w))
          (codeCache w) (playerCache w) (refs_player w)
    | None => w
    end.
Proof.
  intros He. unfold after, effects.
  destruct (error data) as [e|] eqn:Hd.
  - by rewrite (handle_error _ _ e).
  - by rewrite handle_error_missing.
Qed.

Lemma deliver_two_responses w a b :
  (deliver getErrorDetails [WorkerMessage a; WorkerMessage b] w).1 =
  after (handle b) (after (handle a) w).
Proof.
  unfold after. simpl. destruct (handle a w) as [[? w1] ?]. simpl.
  by destruct (handle b w1) as [[? w2] ?].
Qed.

(** C8, as the code has it: of two successful responses for the same
    filename, the one delivered second is the one the cache holds
    afterwards, in either order of delivery, provided the filename does
    not name a member of [Object.prototype]. *)
Theorem last_response_wins w r1 r2 :
  plainName (filename r1) →
  type r1 = "code" → type r2 = "code" → filename r1 = filename r2 →
  cacheFor (filename r1)
    (deliver getErrorDetails [WorkerMessage r1; WorkerMessage r2] w).1
    !! filename r1 = Some (code r2)
  ∧ cacheFor (filename r1)
    (deliver getErrorDetails [WorkerMessage r2; WorkerMessage r1] w).1
    !! filename r1 = Some (code r1).
Proof.
  intros Hname H1 H2 Hk. rewrite !deliver_two_responses. split.
  - rewrite Hk. apply handle_success_cached; [done|]. by rewrite <- Hk.
  - by apply handle_success_cached.
Qed.

(** C10, as the code has it: a successful player response under a
    filename that does not name a member of [Object.prototype] is written
    to the player cache even when its code is empty; as long as a declared
    file has the empty string in the player cache after the write, the
    readiness test fails and nothing is run; in particular an empty result
    for a declared file runs nothing. *)
Theorem empty_output_blocks_run w data :
  plainName (filename data) →
  type data = "code" → isTranspilerId (filename data) = false →
  playerCache (after (handle data) w) !! filename data = Some (code data)
  ∧ (∀ f, f ∈ Object_keys (files (props w)) →
          playerCache (after (handle data) w) !! f = Some "" →
          everyFileTransformed (files (props w))
            (playerCache (after (handle data) w)) = false
          ∧ effects (handle data) w = [])
  ∧ (code data = "" → filename data ∈ Object_keys (files (props w)) →
     effects (handle data) w = []).
Proof.
  intros Hname Hc Hp.
  assert (playerCache (after (handle data) w) =
          <[filename data := code data]> (playerCache w)) as Hcache.
  { unfold after. rewrite handle_player by done.
    rewrite <- (assignMember_plain _ _ _ Hname).
    destruct (everyFileTransformed _ _); [|done].
    by destruct (refs_player w). }
  assert (∀ f, f ∈ Object_keys (files (props w)) →
            playerCache (after (handle data) w) !! f = Some "" →
            everyFileTransformed (files (props w))
              (playerCache (after (handle data) w)) = false
            ∧ effects (handle data) w = []) as Hblock.
  { intros f Hf Hempty.
    assert (everyFileTransformed (files (props w))
              (playerCache (after (handle data) w)) = false) as Hno.
    { apply (everyFileTransformed_false _ _ f); [done|].
      by rewrite (truthyMember_own _ _ "" Hempty). }
    split; [done|].
    destruct (handle_effects w data)
      as [Hnone|(_ & _ & Hr & _)]; [done|].
    rewrite Hcache, <- (assignMember_plain _ _ _ Hname) in Hno. congruence. }
  split; [|split; [done|]].
  - rewrite Hcache. apply lookup_insert_eq.
  - intros Hempty Hf. apply (Hblock (filename data) Hf).
    rewrite Hcache, <- Hempty. apply lookup_insert_eq.
Qed.

(** C7, as the code has it: [runApplication] asks the player to run with
    whatever the player cache holds, ready or not; the readiness test
    guards only the run that follows a worker response, which therefore,
    when no declared file names a member of [Object.prototype], finds
    non-empty code for every declared file in the map it passes. *)
Theorem run_guarded_only_after_response w :
  refs_player w = true →
  runApplication w =
    (Normal tt, w, [RunApplication (playerCache w) (entry (props w))])
  ∧ ∀ data compiled entryFilename,
      Forall plainName (Object_keys (files (props w))) →
      RunApplication compiled entryFilename ∈ effects (handle data) w →
      ∀ f, f ∈ Object_keys (files (props w)) →
           ∃ c, compiled !! f = Some c ∧ c ≠ "".
Proof.
  intros Hm. split.
  - unfold runApplication, mbind, Handler_bind, this. simpl.
    rewrite Hm. reflexivity.
  - intros data compiled entryFilename Hplain Hrun.
    destruct (handle_effects w data)
      as [Hnone|(_ & _ & Hr & _ & Heff)].
    { rewrite Hnone in Hrun. by apply elem_of_nil in Hrun. }
    rewrite Heff in Hrun. apply list_elem_of_singleton in Hrun.
    injection Hrun as -> ->. by apply everyFileTransformed_true.
Qed.

(** C9, as the code has it: a response whose filename is neither a
    declared file nor the transpiler id of one is handled like any other.
    With a well-formed message and a mounted player the handler returns.
    When neither its filename nor a declared file names a member of
    [Object.prototype], a success clears the compiler error, is written to
    the cache of its variant under the filename it came with, and, for the
    player, runs the application if the declared files all have non-empty
    code already.  A failure stores the parsed error and touches nothing
    else. *)
Theorem unknown_response_is_handled w data :
  (∀ f, f ∈ Object_keys (files (props w)) →
        filename data ≠ f ∧ filename data ≠ getTranspilerId f) →
  plainName (filename data) →
  Forall plainName (Object_keys (files (props w))) →
  (type data = "error" → is_Some (error data)) →
  refs_player w = true →
  completion (handle data) w = Normal tt
  ∧ (type data = "code" →
     compilerError (state (after (handle data) w)) = None
     ∧ showDetails (state (after (handle data) w)) = false
     ∧ cacheFor (filename data) (after (handle data) w) !! filename data =
       Some (code data)
     ∧ effects (handle data) w =
       (if isTranspilerId (filename data) then []
        else if everyFileTransformed (files (props w)) (playerCache w)
             then [RunApplication
                     (<[filename data := code data]> (playerCache w))
                     (entry (props w))]
             else [])
     ∧ (everyFileTransformed (files (props w)) (playerCache w) = true ↔
        ∀ f, f ∈ Object_keys (files (props w)) →
             ∃ c, playerCache w !! f = Some c ∧ c ≠ ""))
  ∧ (type data = "error" →
     ∃ e, error data = Some e
     ∧ handle data w =
       (Normal tt,
        mkWorkspace (props w)
          (set_compilerError (Some (getErrorDetails (message e))) (state w))
          (codeCache w) (playerCache w) (refs_player w),
        []))
  ∧ (type data ≠ "code" → type data ≠ "error" →
     handle data w = (Normal tt, w, [])).
Proof.
  intros Hunknown Hname Hplain Hwf Hm.
  assert (filename data ∉ Object_keys (files (props w))) as Hout.
  { intros Hin. by destruct (Hunknown _ Hin) as [? _]. }
  split; [|split; [|split]].
  - unfold completion.
    destruct (decide (type data = "code")) as [Hc|Hc].
    + destruct (isTranspilerId (filename data)) eqn:Hp.
      * by rewrite handle_transpiler.
      * rewrite handle_player by done. rewrite Hm.
        by destruct (everyFileTransformed _ _).
    + destruct (decide (type data = "error")) as [He|He].
      * destruct (Hwf He) as [e Hd]. by rewrite (handle_error _ _ e).
      * by rewrite handle_other.
  - intros Hc. split; [|split; [|split; [|split]]].
    + unfold after. destruct (isTranspilerId (filename data)) eqn:Hp.
      * by rewrite handle_transpiler.
      * rewrite handle_player by done. rewrite Hm.
        by destruct (everyFileTransformed _ _).
    + unfold after. destruct (isTranspilerId (filename data)) eqn:Hp.
      * by rewrite handle_transpiler.
      * rewrite handle_player by done. rewrite Hm.
        by destruct (everyFileTransformed _ _).
    + by apply handle_success_cached.
    + unfold effects. destruct (isTranspilerId (filename data)) eqn:Hp.
      * by rewrite handle_transpiler.
      * rewrite handle_player by done. rewrite Hm. simpl.
        rewrite everyFileTransformed_assign_other by done.
        rewrite assignMember_plain by done.
        by destruct (everyFileTransformed _ _).
    + by apply everyFileTransformed_true.
  - intros He. destruct (Hwf He) as [e Hd]. exists e.
    split; [done|]. by apply handle_error.
  - intros Hc He. by apply handle_other.
Qed.

(** *** Handlers that do not touch the player *)

Lemma sparesPlayer_ret {A} (a : A) : sparesPlayer (mret a).
Proof. done. Qed.

Lemma sparesPlayer_bind {A B} (m : Handler A) (f : A → Handler B) :
  sparesPlayer m → (∀ a, sparesPlayer (f a)) → sparesPlayer (m ≫= f).
Proof.
  intros Hm Hf w. specialize (Hm w). revert Hm.
  unfold after, effects, mbind, Handler_bind.
  destruct (m w) as [[[a|e] w1] e1]; simpl; [|done].
  intros (Hp & Hc & Hr). specialize (Hf a w1). revert Hf.
  unfold after, effects. destruct (f a w1) as [[r w2] e2]; simpl.
  intros (Hp2 & Hc2 & Hr2). unfold runs in *.
  by rewrite omap_app, Hr, Hr2, Hp2, Hc2.
Qed.

Lemma sparesPlayer_this : sparesPlayer this.
Proof. done. Qed.

Lemma sparesPlayer_setState f : sparesPlayer (setState f).
Proof. done. Qed.

Lemma sparesPlayer_setCodeCache k v : sparesPlayer (setCodeCache k v).
Proof. done. Qed.

Lemma sparesPlayer_postMessage r : sparesPlayer (postMessage r).
Proof. done. Qed.

Lemma sparesPlayer_if {A} (b : bool) (h1 h2 : Handler A) :
  sparesPlayer h1 → sparesPlayer h2 → sparesPlayer (if b then h1 else h2).
Proof. by destruct b. Qed.

Create HintDb spares.
#[local] Hint Resolve sparesPlayer_ret sparesPlayer_this sparesPlayer_setState
  sparesPlayer_setCodeCache sparesPlayer_postMessage sparesPlayer_if : spares.
#[local] Hint Extern 2 (sparesPlayer (_ ≫= _)) =>
  apply sparesPlayer_bind; [|intros ?] : spares.

Lemma sparesPlayer_compileFile f : sparesPlayer (compileFile f).
Proof. destruct f as [name source]. unfold compileFile. auto 10 with spares. Qed.

Lemma sparesPlayer_forEach {A} (f : A → Handler unit) l :
  (∀ x, sparesPlayer (f x)) → sparesPlayer (forEach f l).
Proof. intros Hf. induction l; simpl; auto with spares. Qed.

Lemma sparesPlayer_componentDidMount navigator :
  sparesPlayer (componentDidMount navigator).
Proof.
  unfold componentDidMount. apply sparesPlayer_if; auto with spares.
  apply sparesPlayer_bind; [auto with spares|]. intros w.
  apply sparesPlayer_forEach, sparesPlayer_compileFile.
Qed.

Lemma sparesPlayer_onCodeChange code : sparesPlayer (onCodeChange code).
Proof.
  unfold onCodeChange. apply sparesPlayer_bind; [auto with spares|].
  intros w. apply sparesPlayer_bind; [auto with spares|]. intros _.
  apply sparesPlayer_bind; [auto with spares|]. intros _.
  apply sparesPlayer_bind; [auto with spares|]. intros _.
  apply sparesPlayer_bind; [auto with spares|]. intros w'. done.
Qed.

(** The props never change under a worker response, and the player cache
    changes by the write of a successful player response only. *)
Lemma handle_props w data : props (after (handle data) w) = props w.
Proof. response_cases w data; done. Qed.

Lemma handle_playerCache w data :
  playerCache (after (handle data) w) =
  if String.eqb (type data) "code" && negb (isTranspilerId (filename data))
  then assignMember (filename data) (code data) (playerCache w)
  else playerCache w.
Proof.
  response_cases w data;
    try (rewrite Hcode; reflexivity);
    apply String.eqb_neq in Hcode; by rewrite Hcode.
Qed.

(** As long as the file set stays as declared and every successful player
    response is for a declared file, the player cache holds declared
    files only, and every run is handed exactly the declared files. *)
Lemma dispatch_keeps_to_files declared ev w :
  Forall plainName (Object_keys declared) →
  files (props w) = declared →
  dom (playerCache w) ⊆@{gset string} list_to_set (Object_keys declared) →
  keepsToFiles declared ev →
  files (props (after (dispatch getErrorDetails ev) w)) = declared
  ∧ dom (playerCache (after (dispatch getErrorDetails ev) w))
      ⊆@{gset string} list_to_set (Object_keys declared)
  ∧ ∀ compiled entryFilename,
      (compiled, entryFilename) ∈ runs (effects (dispatch getErrorDetails ev) w) →
      dom compiled =@{gset string} list_to_set (Object_keys declared).
Proof.
  intros Hplain Hfiles Hdom Hev.
  assert (∀ h : Handler unit, sparesPlayer h →
            files (props (after h w)) = declared
            ∧ dom (playerCache (after h w))
                ⊆@{gset string} list_to_set (Object_keys declared)
            ∧ ∀ compiled entryFilename,
                (compiled, entryFilename) ∈ runs (effects h w) →
                dom compiled =@{gset string}
                  list_to_set (Object_keys declared)) as Hspares.
  { intros h Hh. destruct (Hh w) as (-> & -> & ->).
    split; [done|]. split; [done|]. intros ? ? Hin.
    by apply elem_of_nil in Hin. }
  destruct ev as [p|navigator|data|code|shown| |message|tab|];
    simpl in Hev; cbn [dispatch].
  - unfold after, effects, render.
    destruct (forallb rendersPane (panes p)); simpl;
      (split; [done|]; split; [done|]; intros ? ? Hin;
       by apply elem_of_nil in Hin).
  - apply Hspares, sparesPlayer_componentDidMount.
  - rewrite handle_props, handle_playerCache.
    split; [done|]. split.
    + destruct (String.eqb (type data) "code") eqn:Hc; [|done].
      destruct (isTranspilerId (filename data)) eqn:Hp; [done|]. simpl.
      apply String.eqb_eq in Hc.
      intros f Hf. apply assignMember_dom in Hf as [->|Hf]; [|by apply Hdom].
      by apply elem_of_list_to_set, Hev.
    + intros compiled entryFilename Hin.
      destruct (handle_effects w data)
        as [Hnone|(Hc & Hp & Hr & _ & Heff)].
      { rewrite Hnone in Hin. by apply elem_of_nil in Hin. }
      rewrite Heff in Hin. apply list_elem_of_singleton in Hin.
      injection Hin as -> ->.
      rewrite Hfiles in Hr. apply everyFileTransformed_dom in Hr; [|done].
      apply (anti_symm (⊆)); [|done].
      intros f Hf. apply assignMember_dom in Hf as [->|Hf]; [|by apply Hdom].
      by apply elem_of_list_to_set, Hev.
  - apply Hspares, sparesPlayer_onCodeChange.
  - apply Hspares, sparesPlayer_setState.
  - apply Hspares, sparesPlayer_setState.
  - apply Hspares, sparesPlayer_setState.
  - apply Hspares, sparesPlayer_setState.
  - done.
Qed.

(** X18: when no declared file names a member of [Object.prototype],
    from an instance whose player cache holds declared files only, and
    along events that keep the file set as declared, bring successful
    player responses for declared files only and never call
    [runApplication] from outside, every run is handed exactly the
    declared files. *)
Lemma deliver_keeps_to_files declared evs w :
  Forall plainName (Object_keys declared) →
  files (props w) = declared →
  dom (playerCache w) ⊆@{gset string} list_to_set (Object_keys declared) →
  Forall (keepsToFiles declared) evs →
  ∀ compiled entryFilename,
    (compiled, entryFilename) ∈ runs (deliver getErrorDetails evs w).2 →
    dom compiled =@{gset string} list_to_set (Object_keys declared).
Proof.
  intros Hplain Hfiles Hdom Hevs. revert w Hfiles Hdom.
  induction Hevs as [|ev evs Hev Hevs IH]; intros w Hfiles Hdom compiled e.
  - simpl. intros Hin. by apply elem_of_nil in Hin.
  - destruct (dispatch_keeps_to_files declared ev w Hplain Hfiles Hdom Hev)
      as (Hfiles1 & Hdom1 & Hruns1).
    revert Hfiles1 Hdom1 Hruns1. unfold after, effects. simpl.
    destruct (dispatch getErrorDetails ev w) as [[r w1] e1]. simpl.
    intros Hfiles1 Hdom1 Hruns1.
    specialize (IH w1 Hfiles1 Hdom1 compiled e).
    destruct (deliver getErrorDetails evs w1) as [w2 e2]. simpl in *.
    unfold runs in *. rewrite omap_app. intros Hin.
    apply elem_of_app in Hin as [Hin|Hin]; [by apply (Hruns1 _ e) | by apply IH].
Qed.

(** *** Mounting and editing *)

Lemma forEach_compileFile l w :
  forEach compileFile l w =
    (Normal tt,
     mkWorkspace (props w) (state w) (cacheSources l (codeCache w))
       (playerCache w) (refs_player w),
     flat_map (λ f, requestsFor (state w) f.1 f.2) l).
Proof.
  revert w. induction l as [|[name source] l IH]; intros w.
  - by destruct w.
  - cbn [forEach]. unfold mbind, Handler_bind at 1.
    assert (compileFile (name, source) w =
            (Normal tt,
             mkWorkspace (props w) (state w)
               (assignMember name source (codeCache w))
               (playerCache w) (refs_player w),
             requestsFor (state w) name source)) as ->.
    { unfold compileFile, requestsFor, postMessage.
      cbv [mbind mret Handler_bind Handler_ret this emit setCodeCache].
      cbn. by destruct (playerVisible (state w)),
                       (transpilerVisible (state w)). }
    rewrite IH. reflexivity.
Qed.

Lemma componentDidMount_run w :
  componentDidMount true w =
    (Normal tt,
     mkWorkspace (props w) (state w)
       (cacheSources (files (props w)) (codeCache w))
       (playerCache w) (refs_player w),
     flat_map (λ f, requestsFor (state w) f.1 f.2) (files (props w))).
Proof.
  unfold componentDidMount. unfold mbind, Handler_bind, this.
  by rewrite forEach_compileFile.
Qed.

Lemma onCodeChange_run code w :
  onCodeChange code w =
    (Normal tt,
     mkWorkspace (props w) (state w)
       (assignMember (activeTab (state w)) code (codeCache w))
       (playerCache w) (refs_player w),
     (requestsFor (state w) (activeTab (state w)) code
      ++ [OnChange (assignMember (activeTab (state w)) code (codeCache w))])%list).
Proof.
  unfold onCodeChange, requestsFor, postMessage.
  cbv [mbind mret Handler_bind Handler_ret this emit setCodeCache]. cbn.
  by destruct (playerVisible (state w)), (transpilerVisible (state w)).
Qed.

Lemma cacheSources_lookup_other l (cache : gmap string string) k :
  k ∉ Object_keys l → cacheSources l cache !! k = cache !! k.
Proof.
  revert cache. induction l as [|[name source] l IH]; intros cache Hk;
    [done|].
  apply not_elem_of_cons in Hk as [Hne Hk]. simpl in *.
  rewrite IH by done. by apply assignMember_lookup_ne.
Qed.

Lemma cacheSources_lookup l (cache : gmap string string) name source :
  plainName name → NoDup (Object_keys l) → (name, source) ∈ l →
  cacheSources l cache !! name = Some source.
Proof.
  intros Hname. revert cache.
  induction l as [|[name' source'] l IH]; intros cache Hnd Hin.
  - by apply elem_of_nil in Hin.
  - apply NoDup_cons in Hnd as [Hfresh Hnd]. simpl in *.
    apply elem_of_cons in Hin as [[= -> ->]|Hin].
    + rewrite cacheSources_lookup_other by done.
      rewrite assignMember_plain by done. apply lookup_insert_eq.
    + by apply IH.
Qed.

(** X1: with [navigator] defined, mounting posts every file once for each
    visible pane, in the order of [files] and the player first, and
    touches nothing but the source cache; without [navigator] it does
    nothing at all. *)
Theorem mount_posts_each_file_per_pane w :
  effects (componentDidMount true) w =
    flat_map (λ f, requestsFor (state w) f.1 f.2) (files (props w))
  ∧ length (effects (componentDidMount true) w) =
    (length (files (props w)) *
     (Nat.b2n (playerVisible (state w))
      + Nat.b2n (transpilerVisible (state w))))%nat
  ∧ state (after (componentDidMount true) w) = state w
  ∧ playerCache (after (componentDidMount true) w) = playerCache w
  ∧ componentDidMount false w = (Normal tt, w, []).
Proof.
  unfold effects, after. rewrite componentDidMount_run. simpl.
  split; [done|]. split; [|done].
  induction (files (props w)) as [|f l IH]; [done|].
  cbn [flat_map]. rewrite length_app, IH. unfold requestsFor.
  destruct (playerVisible (state w)), (transpilerVisible (state w));
    simpl; lia.
Qed.

(** X2: when the filenames of [files] are distinct, as the keys of an
    object are, mounting leaves the source of every file whose name is not
    a member of [Object.prototype] in the source cache under its filename,
    and leaves the entries of undeclared names alone. *)
Theorem mount_caches_every_source w :
  NoDup (Object_keys (files (props w))) →
  (∀ name source, plainName name → (name, source) ∈ files (props w) →
     codeCache (after (componentDidMount true) w) !! name = Some source)
  ∧ (∀ k, k ∉ Object_keys (files (props w)) →
       codeCache (after (componentDidMount true) w) !! k = codeCache w !! k).
Proof.
  intros Hnd. unfold after. rewrite componentDidMount_run. simpl. split.
  - intros name source Hname Hin. by apply cacheSources_lookup.
  - intros k Hk. by apply cacheSources_lookup_other.
Qed.


(** X4: an edit of a tab whose name is neither a transpiler id nor a
    member of [Object.prototype] posts exactly one request per visible
    pane, the player's first, and then calls [props.onChange]; the
    worker's answer to each request comes back to the pane that asked: the
    player result into the player cache under the tab's name, the
    transpiler result into what the transpiler pane shows for the tab.
    Until then the player cache is as it was before the edit. *)
Theorem edit_result_reaches_its_pane w code out :
  isTranspilerId (activeTab (state w)) = false →
  plainName (activeTab (state w)) →
  effects (onCodeChange code) w =
    ((if playerVisible (state w)
      then [PostMessage (mkRequest (activeTab (state w)) code (Some true))]
      else [])
     ++ (if transpilerVisible (state w)
         then [PostMessage
                 (mkRequest (getTranspilerId (activeTab (state w))) code None)]
         else [])
     ++ [OnChange (codeCache (after (onCodeChange code) w))])%list
  ∧ playerCache (after (onCodeChange code) w) = playerCache w
  ∧ playerCache
      (after (handle (codeMessage (activeTab (state w)) out))
             (after (onCodeChange code) w))
      !! activeTab (state w) = Some out
  ∧ transpiler_value
      (renderTranspiler
         (after (handle (codeMessage (getTranspilerId (activeTab (state w))) out))
                (after (onCodeChange code) w)))
    = Some out.
Proof.
  intros Htab Hname.
  assert (effects (onCodeChange code) w =
          (requestsFor (state w) (activeTab (state w)) code
           ++ [OnChange (assignMember (activeTab (state w)) code
                           (codeCache w))])%list)
    as -> by (unfold effects; by rewrite onCodeChange_run).
  assert (after (onCodeChange code) w =
          mkWorkspace (props w) (state w)
            (assignMember (activeTab (state w)) code (codeCache w))
            (playerCache w) (refs_player w))
    as -> by (unfold after; by rewrite onCodeChange_run).
  split; [|split; [done|split]].
  - unfold requestsFor. by rewrite <- app_assoc.
  - rewrite handle_playerCache. simpl. rewrite Htab. simpl.
    rewrite assignMember_plain by done. apply lookup_insert_eq.
  - unfold after. rewrite handle_transpiler;
      [|done|apply isTranspilerId_getTranspilerId].
    simpl. apply lookup_insert_eq.
Qed.

(** *** Who writes what *)

Lemma Array_indexOf_from_spec (i : Z) (a : list string) (x : string) :
  (Array_indexOf_from i a x = -1 ∧ x ∉ a)
  ∨ (i ≤ Array_indexOf_from i a x ∧ x ∈ a).
Proof.
  revert i. induction a as [|y a IH]; intros i; simpl.
  - left. split; [done|]. apply not_elem_of_nil.
  - destruct (String.eqb y x) eqn:Hy.
    + apply String.eqb_eq in Hy as ->. right. split; [lia|].
      apply list_elem_of_here.
    + apply String.eqb_neq in Hy.
      destruct (IH (i + 1)) as [[-> Hout]|[Hle Hin]].
      * left. split; [done|]. apply not_elem_of_cons. by split.
      * right. split; [lia|]. by apply list_elem_of_further.
Qed.

Lemma Array_indexOf_found (a : list string) (x : string) :
  (0 <=? Array_indexOf a x) = true ↔ x ∈ a.
Proof.
  unfold Array_indexOf.
  destruct (Array_indexOf_from_spec 0 a x) as [[-> Hout]|[Hle Hin]].
  - split; [discriminate | done].
  - split; [done|]. intros _. by apply Z.leb_le.
Qed.

Lemma dispatch_visibility ev w :
  playerVisible (state (after (dispatch getErrorDetails ev) w))
    = playerVisible (state w)
  ∧ transpilerVisible (state (after (dispatch getErrorDetails ev) w))
    = transpilerVisible (state w).
Proof.
  destruct ev as [p|[|]|data|code|shown| |message|tab|]; cbn [dispatch];
    try done.
  - unfold after, render. by destruct (forallb rendersPane (panes p)).
  - unfold after. by rewrite componentDidMount_run.
  - response_cases w data; done.
  - unfold after. by rewrite onCodeChange_run.
  - unfold after, runApplication, mbind, Handler_bind, this. simpl.
    by destruct (refs_player w).
Qed.

(** X5: what each event leaves alone.  No event changes which panes the
    instance takes to be visible.  Only the player's own callbacks change
    the runtime error; only worker responses change the compiler error,
    the transpiler cache and the player cache; only a click on a tab
    changes the active tab; only mounting and editing change the source
    cache; only rendering changes the props and the player reference; and
    only a toggle or a worker response changes whether details show. *)
Theorem events_write_their_own_members ev w :
  (playerVisible (state (after (dispatch getErrorDetails ev) w))
     = playerVisible (state w)
   ∧ transpilerVisible (state (after (dispatch getErrorDetails ev) w))
     = transpilerVisible (state w))
  ∧ (ev ≠ PlayerRun → (∀ m, ev ≠ PlayerError m) →
     runtimeError (state (after (dispatch getErrorDetails ev) w))
     = runtimeError (state w))
  ∧ ((∀ data, ev ≠ WorkerMessage data) →
     compilerError (state (after (dispatch getErrorDetails ev) w))
       = compilerError (state w)
     ∧ transpilerCache (state (after (dispatch getErrorDetails ev) w))
       = transpilerCache (state w)
     ∧ playerCache (after (dispatch getErrorDetails ev) w) = playerCache w)
  ∧ ((∀ tab, ev ≠ ClickTab tab) →
     activeTab (state (after (dispatch getErrorDetails ev) w))
     = activeTab (state w))
  ∧ ((∀ code, ev ≠ CodeChange code) → ev ≠ DidMount true →
     codeCache (after (dispatch getErrorDetails ev) w) = codeCache w)
  ∧ ((∀ p, ev ≠ Render p) →
     props (after (dispatch getErrorDetails ev) w) = props w
     ∧ refs_player (after (dispatch getErrorDetails ev) w) = refs_player w)
  ∧ ((∀ shown, ev ≠ ToggleDetails shown) →
     (∀ data, ev ≠ WorkerMessage data) →
     showDetails (state (after (dispatch getErrorDetails ev) w))
     = showDetails (state w)).
Proof.
  destruct ev as [p|[|]|data|code|shown| |message|tab|]; cbn [dispatch];
    repeat split; intros; repeat split;
    try (exfalso;
         match goal with H : _ |- _ => solve [eapply H; reflexivity] end);
    try done.
  all: try (unfold after, render;
            by destruct (forallb rendersPane (panes p))).
  all: try (unfold after; rewrite componentDidMount_run; done).
  all: try (response_cases w data; done).
  all: try (unfold after; rewrite onCodeChange_run; done).
  all: unfold after, runApplication, mbind, Handler_bind, this; simpl;
    by destruct (refs_player w) eqn:Hplayer.
Qed.

(** X6: the panes are read once, by the constructor: whatever happens
    afterwards, a re-render with other panes included, the instance posts
    player requests exactly if ['player'] was among the panes it was
    constructed with, and transpiler requests exactly if ['transpiler']
    was. *)
Theorem panes_read_once p evs :
  (playerVisible (state (deliver getErrorDetails evs (constructor p)).1) = true
   ↔ "player" ∈ panes p)
  ∧ (transpilerVisible
       (state (deliver getErrorDetails evs (constructor p)).1) = true
     ↔ "transpiler" ∈ panes p).
Proof.
  assert (∀ w,
    playerVisible (state (deliver getErrorDetails evs w).1)
      = playerVisible (state w)
    ∧ transpilerVisible (state (deliver getErrorDetails evs w).1)
      = transpilerVisible (state w)) as Hfrozen.
  { induction evs as [|ev evs IH]; intros w; [done|].
    destruct (dispatch_visibility ev w) as [Hp Ht].
    revert Hp Ht. unfold after. simpl.
    destruct (dispatch getErrorDetails ev w) as [[r w1] e1]. simpl.
    intros <- <-. specialize (IH w1).
    by destruct (deliver getErrorDetails evs w1) as [w2 e2]. }
  destruct (Hfrozen (constructor p)) as [-> ->]. simpl.
  split; apply Array_indexOf_found.
Qed.

(** *** More on worker responses *)

Lemma handle_transpilerCache w data :
  transpilerCache (state (after (handle data) w)) =
  if String.eqb (type data) "code" && isTranspilerId (filename data)
  then <[filename data := code data]> (transpilerCache (state w))
  else transpilerCache (state w).
Proof.
  response_cases w data;
    try (rewrite Hcode; reflexivity);
    apply String.eqb_neq in Hcode; by rewrite Hcode.
Qed.

Lemma everyFileTransformed_insert_nonempty files (cache : gmap string string)
    k v :
  everyFileTransformed files cache = true → v ≠ "" →
  everyFileTransformed files (assignMember k v cache) = true.
Proof.
  intros Hr Hv. unfold assignMember.
  destruct (String.eqb k "__proto__"); [done|].
  apply everyFileTransformed_members. intros f Hf.
  destruct (decide (k = f)) as [->|Hne].
  - rewrite (truthyMember_own _ _ v) by apply lookup_insert_eq.
    destruct v; [done|reflexivity].
  - unfold Object_member. rewrite lookup_insert_ne by done.
    by apply (proj1 (everyFileTransformed_members _ _) Hr).
Qed.

(** X7: given a response that parsed and carries a string filename, the
    handler throws in exactly two situations: a failure response without
    its [error] object, and a successful player response that passes the
    readiness test while no player is mounted.  In both nothing has been
    asked of the worker, the player or the host; in the first the instance
    is untouched, in the second the compiler error is cleared and the
    assignment to the player cache is done. *)
Theorem response_throws_exactly_when w data :
  (completion (handle data) w = Throw TypeError ↔
   (type data = "error" ∧ error data = None)
   ∨ (type data = "code" ∧ isTranspilerId (filename data) = false
      ∧ everyFileTransformed (files (props w))
          (assignMember (filename data) (code data) (playerCache w)) = true
      ∧ refs_player w = false))
  ∧ (completion (handle data) w = Throw TypeError →
     effects (handle data) w = []
     ∧ (type data = "error" → after (handle data) w = w)
     ∧ (type data = "code" → after (handle data) w = written data w)).
Proof.
  response_cases w data; simpl in *; (split; [split|]);
    try discriminate; try (intros [[? ?]|(? & ? & ? & ?)]; congruence).
  - intros _. right. done.
  - intros _. split; [done|]. split; [congruence|]. done.
  - intros _. by left.
  - intros _. split; [done|]. split; [done|]. congruence.
Qed.

(** X8: handling a response never posts to the worker and never calls
    [props.onChange]; it leaves at most one effect, a run. *)
Theorem response_only_ever_runs w data :
  Forall (λ e, ∃ compiled entryFilename,
                 e = RunApplication compiled entryFilename)
         (effects (handle data) w)
  ∧ (length (effects (handle data) w) ≤ 1)%nat.
Proof.
  destruct (handle_effects w data) as [->|(_ & _ & _ & _ & ->)].
  - split; [apply Forall_nil_2 | simpl; lia].
  - split; [|simpl; lia]. apply Forall_cons. split; [|apply Forall_nil_2].
    by eexists _, _.
Qed.

(** X9: once every declared file has non-empty code and a player is
    mounted, every further successful player response with non-empty code,
    for whatever filename, runs the application again: as many runs as
    responses, and the file set stays ready. *)
Theorem compiled_set_reruns_on_every_result w msgs :
  refs_player w = true →
  everyFileTransformed (files (props w)) (playerCache w) = true →
  Forall playerSuccess msgs →
  length (runs (deliver getErrorDetails (WorkerMessage <$> msgs) w).2)
    = length msgs
  ∧ everyFileTransformed (files (props w))
      (playerCache (deliver getErrorDetails (WorkerMessage <$> msgs) w).1)
    = true.
Proof.
  intros Hm Hr Hmsgs. revert w Hm Hr.
  induction Hmsgs as [|data msgs (Hc & Hp & Hv) _ IH]; intros w Hm Hr;
    [done|].
  cbn [fmap list_fmap deliver dispatch].
  rewrite handle_runs_when_ready;
    [|done|done|done|by apply everyFileTransformed_insert_nonempty].
  specialize (IH (written data w) Hm
                (everyFileTransformed_insert_nonempty _ _ _ _ Hr Hv)).
  destruct (deliver getErrorDetails (WorkerMessage <$> msgs) (written data w))
    as [w2 e2]. simpl in *. destruct IH as [-> ->]. done.
Qed.

(** X10: with no file declared the readiness test passes vacuously: every
    successful player response runs the application, its code empty or
    not, with the player cache as the assignment left it. *)
Theorem empty_file_set_runs_on_any_success w data :
  files (props w) = [] → refs_player w = true →
  type data = "code" → isTranspilerId (filename data) = false →
  handle data w =
    (Normal tt, written data w,
     [RunApplication (playerCache (written data w)) (entry (props w))])
  ∧ (plainName (filename data) →
     playerCache (written data w)
     = <[filename data := code data]> (playerCache w)).
Proof.
  intros Hnone Hm Hc Hp. split.
  - apply handle_runs_when_ready; try done. by rewrite Hnone.
  - intros Hname. simpl. by apply assignMember_plain.
Qed.

(** X11: a declared file whose own name starts with the marker can never
    be compiled for the player: its player result is taken for a
    transpiler result.  As long as the player cache has nothing for it, no
    sequence of worker responses puts anything there or runs the
    application. *)
Theorem marker_named_file_never_runs w f msgs :
  f ∈ Object_keys (files (props w)) → isTranspilerId f = true →
  truthy (playerCache w !! f) = false →
  runs (deliver getErrorDetails (WorkerMessage <$> msgs) w).2 = []
  ∧ playerCache (deliver getErrorDetails (WorkerMessage <$> msgs) w).1 !! f
    = playerCache w !! f.
Proof.
  intros Hf Hid. revert w Hf.
  induction msgs as [|data msgs IH]; intros w Hf Hnone; [done|].
  cbn [fmap list_fmap deliver dispatch].
  assert (playerCache (after (handle data) w) !! f = playerCache w !! f)
    as Hsame.
  { rewrite handle_playerCache.
    destruct (String.eqb (type data) "code"); [|done].
    destruct (isTranspilerId (filename data)) eqn:Hp; [done|]. simpl.
    apply assignMember_lookup_ne. intros Heq. congruence. }
  assert (effects (handle data) w = []) as Hquiet.
  { destruct (handle_effects w data) as [Hq|(_ & Hp & Hr & _)]; [done|].
    exfalso.
    pose proof (proj1 (everyFileTransformed_members _ _) Hr f Hf) as Hyes.
    rewrite truthyMember_plain in Hyes by by apply isTranspilerId_plainName.
    rewrite assignMember_lookup_ne in Hyes by congruence.
    congruence. }
  pose proof (handle_props w data) as Hprops.
  revert Hsame Hquiet Hprops. unfold after, effects.
  destruct (handle data w) as [[r w1] e1]. simpl. intros Hsame -> Hprops.
  specialize (IH w1). rewrite Hprops in IH.
  specialize (IH Hf). rewrite Hsame in IH. specialize (IH Hnone).
  destruct (deliver getErrorDetails (WorkerMessage <$> msgs) w1) as [w2 e2].
  simpl in *. by destruct IH as [-> ->].
Qed.

(** X12: a response whose filename is not a transpiler id leaves the
    transpiler cache and the source cache as they were, so the transpiler
    pane shows what it showed before. *)
Theorem player_response_spares_transpiler w data :
  isTranspilerId (filename data) = false →
  transpilerCache (state (after (handle data) w)) = transpilerCache (state w)
  ∧ codeCache (after (handle data) w) = codeCache w
  ∧ renderTranspiler (after (handle data) w) = renderTranspiler w.
Proof.
  intros Hp. response_cases w data; try congruence; done.
Qed.

(** *** The two caches along a run of events *)

Lemma dispatch_keeps_caches ev w :
  (∀ data, ev ≠ WorkerMessage data) →
  transpilerCache (state (after (dispatch getErrorDetails ev) w))
    = transpilerCache (state w)
  ∧ playerCache (after (dispatch getErrorDetails ev) w) = playerCache w.
Proof.
  intros Hev.
  destruct ev as [p|[|]|data|code|shown| |message|tab|]; cbn [dispatch];
    try done.
  - unfold after, render. by destruct (forallb rendersPane (panes p)).
  - unfold after. by rewrite componentDidMount_run.
  - by destruct (Hev data).
  - unfold after. by rewrite onCodeChange_run.
  - unfold after, runApplication, mbind, Handler_bind, this. simpl.
    by destruct (refs_player w).
Qed.

(** X13: from construction on, whatever the events, the two caches never
    share a key: every key of the transpiler cache starts with the marker
    and no key of the player cache does. *)
Theorem caches_never_share_a_key p evs :
  (∀ k, k ∈ dom (transpilerCache
                   (state (deliver getErrorDetails evs (constructor p)).1)) →
        isTranspilerId k = true)
  ∧ (∀ k, k ∈ dom (playerCache
                     (deliver getErrorDetails evs (constructor p)).1) →
          isTranspilerId k = false)
  ∧ dom (transpilerCache
           (state (deliver getErrorDetails evs (constructor p)).1))
    ∩ dom (playerCache (deliver getErrorDetails evs (constructor p)).1)
    =@{gset string} ∅.
Proof.
  assert (∀ w,
    (∀ k, k ∈ dom (transpilerCache (state w)) → isTranspilerId k = true) →
    (∀ k, k ∈ dom (playerCache w) → isTranspilerId k = false) →
    (∀ k, k ∈ dom (transpilerCache
                     (state (deliver getErrorDetails evs w).1)) →
          isTranspilerId k = true)
    ∧ (∀ k, k ∈ dom (playerCache (deliver getErrorDetails evs w).1) →
            isTranspilerId k = false)) as Hinv.
  { induction evs as [|ev evs IH]; intros w Ht Hp; [done|].
    assert ((∀ k, k ∈ dom (transpilerCache
                      (state (after (dispatch getErrorDetails ev) w))) →
                  isTranspilerId k = true)
            ∧ (∀ k, k ∈ dom (playerCache
                        (after (dispatch getErrorDetails ev) w)) →
                    isTranspilerId k = false)) as [Ht1 Hp1].
    { assert ((∃ data, ev = WorkerMessage data)
              ∨ ∀ data, ev ≠ WorkerMessage data) as [[data ->]|Hev]
        by (destruct ev; eauto).
      - cbn [dispatch]. rewrite handle_transpilerCache, handle_playerCache.
        destruct (String.eqb (type data) "code"); [|done].
        destruct (isTranspilerId (filename data)) eqn:Hid; simpl.
        + split; [|done]. intros k. rewrite dom_insert_L.
          intros [->%elem_of_singleton|Hk]%elem_of_union; auto.
        + split; [done|]. intros k [->|Hk]%assignMember_dom; auto.
      - by destruct (dispatch_keeps_caches ev w Hev) as [-> ->]. }
    revert Ht1 Hp1. unfold after. simpl.
    destruct (dispatch getErrorDetails ev w) as [[r w1] e1]. simpl.
    intros Ht1 Hp1. specialize (IH w1 Ht1 Hp1).
    by destruct (deliver getErrorDetails evs w1) as [w2 e2]. }
  destruct (Hinv (constructor p)) as [Ht Hp].
  { intros k Hk. simpl in Hk. by rewrite dom_empty_L in Hk. }
  { intros k Hk. simpl in Hk. by rewrite dom_empty_L in Hk. }
  split; [done|]. split; [done|].
  apply set_eq. intros k. split; [|by intros ?%elem_of_empty].
  intros [Hkt Hkp]%elem_of_intersection.
  specialize (Ht k Hkt). specialize (Hp k Hkp). congruence.
Qed.

(** *** What the panes show *)

(** X14: [isTranspilerId] recognises exactly the filenames that
    [getTranspilerId] produces; a file whose own name starts with the
    marker is among them. *)
Theorem isTranspilerId_iff_encoded filename :
  isTranspilerId filename = true ↔ ∃ name, filename = getTranspilerId name.
Proof.
  split; [apply isTranspilerId_inv|].
  intros [name ->]. apply isTranspilerId_getTranspilerId.
Qed.

(** X15: after a successful transpiler response for a file, the transpiler
    pane shows the new code when that file's tab is selected, and for
    every other tab what it showed before the response. *)
Theorem transpiler_pane_shows_result_of_its_tab w data name tab :
  type data = "code" → filename data = getTranspilerId name →
  transpiler_value
    (renderTranspiler (after (onClickTab tab) (after (handle data) w)))
  = if decide (tab = name) then Some (code data)
    else transpiler_value (renderTranspiler (after (onClickTab tab) w)).
Proof.
  intros Hc Hname. unfold after at 2 3.
  rewrite handle_transpiler;
    [|done|rewrite Hname; apply isTranspilerId_getTranspilerId].
  simpl. rewrite Hname. destruct (decide (tab = name)) as [->|Hne].
  - apply lookup_insert_eq.
  - apply lookup_insert_ne. intros Heq. by apply append_inj_r in Heq.
Qed.

(** X16: after a successful response, of either variant, the editor pane
    shows the runtime error if there is one and "No Errors" otherwise, and
    the details are closed. *)
Theorem success_shows_runtime_error w data :
  type data = "code" →
  status_text (renderEditor (after (handle data) w))
    = match runtimeError (state w) with
      | Some e => summary e
      | None => "No Errors"
      end
  ∧ status_isError (renderEditor (after (handle data) w))
    = bool_decide (is_Some (runtimeError (state w)))
  ∧ editor_errorLineNumber (renderEditor (after (handle data) w))
    = lineNumber <$> runtimeError (state w)
  ∧ overlay (renderEditor (after (handle data) w)) = None
  ∧ button_active (renderEditor (after (handle data) w)) = false.
Proof.
  intros Hc. response_cases w data; try congruence;
    unfold renderEditor, shownError; simpl;
    by destruct (runtimeError (state w)).
Qed.

(** The player's callbacks, as events. *)
Lemma player_events_keep_compilerError evs w :
  Forall (λ ev, ev = PlayerRun ∨ ∃ m, ev = PlayerError m) evs →
  compilerError (state (deliver getErrorDetails evs w).1)
    = compilerError (state w)
  ∧ showDetails (state (deliver getErrorDetails evs w).1)
    = showDetails (state w).
Proof.
  intros Hevs. revert w.
  induction Hevs as [|ev evs [->|[m ->]] _ IH]; intros w; [done| |].
  - simpl. specialize (IH (after onPlayerRun w)). unfold after in IH.
    simpl in IH.
    by destruct (deliver getErrorDetails evs _) as [w2 e2].
  - simpl. specialize (IH (after (onPlayerError getErrorDetails m) w)).
    unfold after in IH. simpl in IH.
    by destruct (deliver getErrorDetails evs _) as [w2 e2].
Qed.

(** X17: after a failure response the editor pane shows the compiler
    error, with its line, and keeps showing it whatever the player reports
    in the meantime, a runtime error or the start of a run; the details
    are open exactly if they were open before. *)
Theorem failure_shows_compiler_error w data e evs :
  type data = "error" → error data = Some e →
  Forall (λ ev, ev = PlayerRun ∨ ∃ m, ev = PlayerError m) evs →
  status_text
    (renderEditor (deliver getErrorDetails evs (after (handle data) w)).1)
    = summary (getErrorDetails (message e))
  ∧ status_isError
      (renderEditor (deliver getErrorDetails evs (after (handle data) w)).1)
    = true
  ∧ editor_errorLineNumber
      (renderEditor (deliver getErrorDetails evs (after (handle data) w)).1)
    = Some (lineNumber (getErrorDetails (message e)))
  ∧ overlay
      (renderEditor (deliver getErrorDetails evs (after (handle data) w)).1)
    = if showDetails (state w)
      then Some (true,
                 description (getErrorDetails (message e))
                 +:+ newline +:+ newline)
      else None.
Proof.
  intros Ht He Hevs.
  destruct (player_events_keep_compilerError evs (after (handle data) w) Hevs)
    as [Herr Hshow].
  unfold renderEditor, shownError. rewrite Herr, Hshow.
  unfold after. rewrite (handle_error _ _ e) by done. simpl.
  by destruct (showDetails (state w)).
Qed.

Lemma dispatch_keeps_props ev w :
  (∀ p, ev ≠ Render p) →
  props (after (dispatch getErrorDetails ev) w) = props w.
Proof.
  intros Hev.
  destruct ev as [p|[|]|data|code|shown| |message|tab|]; cbn [dispatch];
    try done.
  - by destruct (Hev p).
  - unfold after. by rewrite componentDidMount_run.
  - apply handle_props.
  - unfold after. by rewrite onCodeChange_run.
  - unfold after, runApplication, mbind, Handler_bind, this. simpl.
    by destruct (refs_player w).
Qed.

(** X19: while no compiler error is pending, a runtime error reported by
    the player is what the editor pane shows, with its line, until the
    player reports the start of a run; then the pane shows "No Errors". *)
Theorem runtime_error_shows_until_next_run w m :
  compilerError (state w) = None →
  status_text (renderEditor (after (onPlayerError getErrorDetails m) w))
    = summary (getErrorDetails m)
  ∧ editor_errorLineNumber
      (renderEditor (after (onPlayerError getErrorDetails m) w))
    = Some (lineNumber (getErrorDetails m))
  ∧ status_text
      (renderEditor
         (after onPlayerRun (after (onPlayerError getErrorDetails m) w)))
    = "No Errors"
  ∧ status_isError
      (renderEditor
         (after onPlayerRun (after (onPlayerError getErrorDetails m) w)))
    = false.
Proof.
  intros Hnone. unfold renderEditor, shownError, after. simpl.
  by rewrite Hnone.
Qed.

(** X20: the editor of a tab is given what [props.files] holds under the
    tab's name: the declared source if the tab is a declared file, and
    otherwise nothing, unless the name is a member of [Object.prototype],
    which is then what is found.  As long as the component is not rendered
    with other props, no edit, response or click changes that: a tab left
    and come back to opens with its declared source, not with what was
    typed. *)
Theorem editor_opens_with_declared_source evs w :
  Forall (λ ev, ∀ p, ev ≠ Render p) evs →
  editor_initialValue (renderEditor (deliver getErrorDetails evs w).1)
    = Object_get (files (props w))
        (activeTab (state (deliver getErrorDetails evs w).1))
  ∧ (∀ name source,
       NoDup (Object_keys (files (props w))) →
       (name, source) ∈ files (props w) →
       activeTab (state (deliver getErrorDetails evs w).1) = name →
       editor_initialValue (renderEditor (deliver getErrorDetails evs w).1)
       = Own source)
  ∧ (activeTab (state (deliver getErrorDetails evs w).1)
       ∉ Object_keys (files (props w)) →
     editor_initialValue (renderEditor (deliver getErrorDetails evs w).1)
     = if inheritsMember (activeTab (state (deliver getErrorDetails evs w).1))
       then Inherited else Undefined).
Proof.
  intros Hevs.
  assert (props (deliver getErrorDetails evs w).1 = props w) as Hprops.
  { revert w. induction Hevs as [|ev evs Hev _ IH]; intros w; [done|].
    pose proof (dispatch_keeps_props ev w Hev) as Hstep. revert Hstep.
    unfold after. simpl.
    destruct (dispatch getErrorDetails ev w) as [[r w1] e1]. simpl.
    intros <-. specialize (IH w1).
    by destruct (deliver getErrorDetails evs w1) as [w2 e2]. }
  unfold renderEditor. simpl. rewrite Hprops.
  generalize (activeTab (state (deliver getErrorDetails evs w).1)).
  intros tab. split; [done|]. split.
  - intros name source Hnd Hin ->. revert Hnd Hin.
    induction (files (props w)) as [|[k v] l IH]; intros Hnd Hin.
    + by apply elem_of_nil in Hin.
    + apply NoDup_cons in Hnd as [Hfresh Hnd]. simpl.
      apply elem_of_cons in Hin as [[= -> ->]|Hin].
      * by rewrite String.eqb_refl.
      * assert (k ≠ name) as Hne.
        { intros ->. apply Hfresh. apply list_elem_of_fmap.
          by exists (name, source). }
        apply String.eqb_neq in Hne. rewrite Hne. by apply IH.
  - induction (files (props w)) as [|[k v] l IH]; intros Hout; [done|].
    apply not_elem_of_cons in Hout as [Hne Hout]. simpl.
    assert (k ≠ tab) as Hne' by (intros ->; by apply Hne).
    apply String.eqb_neq in Hne'. rewrite Hne'. by apply IH.
Qed.

End Response.

(** ** Concrete runs *)

Abbreviation receive := (onBabelWorkerMessage plainErrorDetails).

(** Mounting posts each file twice, once per visible pane, in the order
    of [files]. *)
Example mount_posts_every_file :
  (deliver plainErrorDetails [Render sampleProps; DidMount true]
           (constructor sampleProps)).2 =
  [PostMessage (mkRequest "a.js" "export default 1" (Some true));
   PostMessage (mkRequest "@babel-a.js" "export default 1" None);
   PostMessage (mkRequest "b.js" "export default 2" (Some true));
   PostMessage (mkRequest "@babel-b.js" "export default 2" None)].
Proof. vm_compute. reflexivity. Qed.

(** With files [a.js] and [b.js]: nothing runs after [a.js] alone, and the
    response for [b.js] runs the application once with both. *)
Example spec_scenario_4 :
  runs (deliver plainErrorDetails
          [WorkerMessage (codeMessage "a.js" "A")] (mounted sampleProps)).2 = []
  ∧ runs (deliver plainErrorDetails
          [WorkerMessage (codeMessage "a.js" "A");
           WorkerMessage (codeMessage "b.js" "B")] (mounted sampleProps)).2 =
    [(<["a.js" := "A"]> (<["b.js" := "B"]> ∅), "a.js")].
Proof. split; vm_compute; reflexivity. Qed.

(** C1 does not hold as stated: the instance declares [a.js] only, but its
    player cache already holds a result for [b.js]; when the response for
    [a.js] arrives, the run is handed both keys. *)
Lemma stale_key_reaches_player :
  Object_keys (files (props foreignCached)) = ["a.js"]
  ∧ effects (receive (codeMessage "a.js" "A")) foreignCached =
    [RunApplication (<["a.js" := "A"]> (<["b.js" := "B"]> ∅)) "a.js"]
  ∧ dom (<["a.js" := "A"]> (<["b.js" := "B"]> (∅ : gmap string string)))
    ≠@{gset string} list_to_set (Object_keys (files (props foreignCached))).
Proof.
  split; [reflexivity|]. split; [vm_compute; reflexivity|].
  intros Heq.
  assert ("b.js" ∈@{gset string} list_to_set ["a.js"]) as Hin.
  { change ["a.js"] with (Object_keys (files (props foreignCached))).
    rewrite <- Heq. apply elem_of_dom. exists "B". vm_compute. reflexivity. }
  apply elem_of_list_to_set, list_elem_of_singleton in Hin. discriminate.
Qed.

(** [run_passes_whole_cache] at the response for [b.js] that completes
    [a.js], [b.js]: here the keys handed over are the declared files. *)
Lemma run_passes_whole_cache_witness :
  RunApplication (<["b.js" := "B"]> (<["a.js" := "A"]> ∅)) "a.js"
    ∈ effects (receive (codeMessage "b.js" "B")) halfCompiled
  ∧ dom (<["b.js" := "B"]> (<["a.js" := "A"]> (∅ : gmap string string)))
    =@{gset string} list_to_set (Object_keys (files (props halfCompiled))).
Proof.
  assert (RunApplication (<["b.js" := "B"]> (<["a.js" := "A"]> ∅)) "a.js"
            ∈ effects (receive (codeMessage "b.js" "B")) halfCompiled) as Hrun.
  { replace (effects (receive (codeMessage "b.js" "B")) halfCompiled)
      with [RunApplication (<["b.js" := "B"]> (<["a.js" := "A"]> ∅)) "a.js"]
      by (vm_compute; reflexivity).
    apply list_elem_of_here. }
  split; [exact Hrun|].
  assert (Forall plainName (Object_keys (files (props halfCompiled))))
    as Hplain
    by (repeat apply Forall_cons_2; try apply Forall_nil_2; reflexivity).
  destruct (run_passes_whole_cache plainErrorDetails halfCompiled
              (codeMessage "b.js" "B") _ _ Hplain eq_refl Hrun)
    as (_ & _ & _ & _ & Hiff).
  apply Hiff. intros f Hf.
  replace (dom (playerCache halfCompiled)) with ({["a.js"]} : gset string)
    in Hf by (vm_compute; reflexivity).
  change (Object_keys (files (props halfCompiled))) with ["a.js"; "b.js"].
  apply elem_of_union in Hf as [Hf|Hf]; apply elem_of_singleton in Hf as ->;
    apply elem_of_list_to_set.
  - apply list_elem_of_here.
  - apply list_elem_of_further, list_elem_of_here.
Defined.

(** C2 fails on an empty result: the only declared file is [index.js], the
    successful response for it carries the empty string, and afterwards
    every declared file has an entry in the player cache; yet the handler
    returns without asking for a run. *)
Theorem empty_output_never_runs :
  Object_keys (files (props (mounted emptyFileProps))) = ["index.js"]
  ∧ refs_player (mounted emptyFileProps) = true
  ∧ playerCache
      (after (receive (codeMessage "index.js" "")) (mounted emptyFileProps))
      !! "index.js" = Some ""
  ∧ Forall (λ f, is_Some (playerCache
                    (after (receive (codeMessage "index.js" ""))
                           (mounted emptyFileProps)) !! f))
      (Object_keys (files (props (mounted emptyFileProps))))
  ∧ completion (receive (codeMessage "index.js" "")) (mounted emptyFileProps)
    = Normal tt
  ∧ effects (receive (codeMessage "index.js" "")) (mounted emptyFileProps)
    = [].
Proof.
  split; [reflexivity|]. split; [reflexivity|].
  split; [vm_compute; reflexivity|]. split.
  - apply Forall_cons. split; [|apply Forall_nil_2].
    exists "". vm_compute. reflexivity.
  - split; vm_compute; reflexivity.
Qed.

(** [transpiler_response_spares_player] at a transpiler result for
    [b.js]. *)
Lemma transpiler_response_spares_player_witness :
  isTranspilerId "@babel-b.js" = true
  ∧ playerCache (after (receive (codeMessage "@babel-b.js" "T")) halfCompiled)
    = playerCache halfCompiled
  ∧ effects (receive (codeMessage "@babel-b.js" "T")) halfCompiled = []
  ∧ transpilerCache
      (state (after (receive (codeMessage "@babel-b.js" "T")) halfCompiled))
      !! "@babel-b.js" = Some "T".
Proof.
  assert (isTranspilerId (filename (codeMessage "@babel-b.js" "T")) = true)
    as Hid by (vm_compute; reflexivity).
  destruct (transpiler_response_spares_player plainErrorDetails halfCompiled
              (codeMessage "@babel-b.js" "T") Hid)
    as (Hplayer & _ & _ & Heff & Htc).
  split; [exact Hid|]. split; [exact Hplayer|]. split; [exact Heff|].
  rewrite Htc. simpl. apply lookup_insert_eq.
Defined.

(** C5 does not hold as stated: with the details shown, a failure
    response stores the error and the details stay shown. *)
Lemma failure_keeps_details_shown :
  showDetails (state detailsShown) = true
  ∧ showDetails
      (state (after (receive (errorMessage "a.js" "SyntaxError: Unexpected token (1:8)"))
                    detailsShown)) = true
  ∧ compilerError
      (state (after (receive (errorMessage "a.js" "SyntaxError: Unexpected token (1:8)"))
                    detailsShown))
    = Some (plainErrorDetails "SyntaxError: Unexpected token (1:8)").
Proof.
  split; [reflexivity|]. split; vm_compute; reflexivity.
Qed.

(** [failure_then_success_status] at a failure for [a.js] followed by a
    transpiler result for [b.js]. *)
Lemma failure_then_success_status_witness :
  compilerError
    (state (after (receive (errorMessage "a.js" "SyntaxError: Unexpected token (1:8)"))
                  detailsShown))
  = Some (plainErrorDetails "SyntaxError: Unexpected token (1:8)")
  ∧ showDetails
      (state (after (receive (codeMessage "@babel-b.js" "T"))
                (after (receive (errorMessage "a.js" "SyntaxError: Unexpected token (1:8)"))
                       detailsShown))) = false.
Proof.
  destruct (failure_then_success_status plainErrorDetails detailsShown
              (errorMessage "a.js" "SyntaxError: Unexpected token (1:8)")
              (mkErrorObject "SyntaxError: Unexpected token (1:8)")
              (codeMessage "@babel-b.js" "T")
              eq_refl eq_refl eq_refl) as (Herr & _ & _ & Hshow).
  split; [exact Herr | exact Hshow].
Defined.

(** [failure_leaves_caches] at a failure for [a.js] after both files were
    compiled: the compiled [a.js] is still there. *)
Lemma failure_leaves_caches_witness :
  type (errorMessage "a.js" "SyntaxError: Unexpected token (1:8)") = "error"
  ∧ playerCache failedAfterCompiled = playerCache fullyCompiled
  ∧ playerCache failedAfterCompiled !! "a.js" = Some "A".
Proof.
  split; [reflexivity|].
  destruct (failure_leaves_caches plainErrorDetails fullyCompiled
              (errorMessage "a.js" "SyntaxError: Unexpected token (1:8)")
              eq_refl) as (Hplayer & _).
  split; [exact Hplayer|]. vm_compute. reflexivity.
Defined.

(** C7 does not hold as stated: right after mounting nothing is compiled,
    the readiness test fails, and a call of [runApplication] still asks
    the player to run, with an empty map. *)
Lemma unguarded_runApplication :
  everyFileTransformed (files (props (mounted sampleProps)))
    (playerCache (mounted sampleProps)) = false
  ∧ deliver plainErrorDetails [CallRunApplication] (mounted sampleProps) =
    (mounted sampleProps, [RunApplication ∅ "a.js"]).
Proof.
  split; vm_compute; reflexivity.
Qed.

(** [run_guarded_only_after_response] with [a.js] compiled and [b.js]
    not. *)
Lemma run_guarded_only_after_response_witness :
  refs_player halfCompiled = true
  ∧ effects runApplication halfCompiled =
    [RunApplication (<["a.js" := "A"]> ∅) "a.js"]
  ∧ everyFileTransformed (files (props halfCompiled)) (playerCache halfCompiled)
    = false
  ∧ Forall plainName (Object_keys (files (props halfCompiled)))
  ∧ ∃ c, (<["b.js" := "B"]> (<["a.js" := "A"]> ∅) : gmap string string)
           !! "a.js" = Some c ∧ c ≠ "".
Proof.
  destruct (run_guarded_only_after_response plainErrorDetails halfCompiled
              eq_refl) as [Hrun Hguard].
  assert (Forall plainName (Object_keys (files (props halfCompiled))))
    as Hplain
    by (repeat apply Forall_cons_2; try apply Forall_nil_2; reflexivity).
  split; [reflexivity|]. split; [|split; [vm_compute; reflexivity|]].
  { unfold effects. rewrite Hrun. vm_compute. reflexivity. }
  split; [exact Hplain|].
  apply (Hguard (codeMessage "b.js" "B") _ "a.js" Hplain).
  - replace (effects (receive (codeMessage "b.js" "B")) halfCompiled)
      with [RunApplication (<["b.js" := "B"]> (<["a.js" := "A"]> ∅)) "a.js"]
      by (vm_compute; reflexivity).
    apply list_elem_of_here.
  - apply list_elem_of_here.
Defined.

(** [last_response_wins] at two results for [a.js]. *)
Lemma last_response_wins_witness :
  playerCache
    (deliver plainErrorDetails
       [WorkerMessage (codeMessage "a.js" "newer");
        WorkerMessage (codeMessage "a.js" "older")] fullyCompiled).1
    !! "a.js" = Some "older"
  ∧ playerCache
    (deliver plainErrorDetails
       [WorkerMessage (codeMessage "a.js" "older");
        WorkerMessage (codeMessage "a.js" "newer")] fullyCompiled).1
    !! "a.js" = Some "newer".
Proof.
  exact (last_response_wins plainErrorDetails fullyCompiled
           (codeMessage "a.js" "newer") (codeMessage "a.js" "older")
           eq_refl eq_refl eq_refl eq_refl).
Defined.

(** C8 does not hold as stated: two successful responses under the
    filename [__proto__] are both assigned to the player cache and both
    assignments are ignored, so afterwards the cache holds neither the
    second-delivered code nor anything else under that name. *)
Lemma proto_response_is_never_cached :
  isTranspilerId "__proto__" = false
  ∧ cacheFor "__proto__"
      (deliver plainErrorDetails
         [WorkerMessage (codeMessage "__proto__" "older");
          WorkerMessage (codeMessage "__proto__" "newer")] fullyCompiled).1
      !! "__proto__" = None
  ∧ playerCache
      (deliver plainErrorDetails
         [WorkerMessage (codeMessage "__proto__" "older");
          WorkerMessage (codeMessage "__proto__" "newer")] fullyCompiled).1
    = playerCache fullyCompiled.
Proof.
  split; [reflexivity|]. split; vm_compute; reflexivity.
Qed.

(** C9 does not hold as stated: with [a.js] and [b.js] compiled and a
    compiler error showing, a success for the undeclared [zzz.js] is
    written to the player cache, clears the error and runs the
    application. *)
Lemma unknown_response_is_obeyed :
  Object_keys (files (props failedAfterCompiled)) = ["a.js"; "b.js"]
  ∧ playerCache failedAfterCompiled !! "zzz.js" = None
  ∧ compilerError (state failedAfterCompiled)
    = Some (plainErrorDetails "SyntaxError: Unexpected token (1:8)")
  ∧ playerCache (after (receive (codeMessage "zzz.js" "Z")) failedAfterCompiled)
      !! "zzz.js" = Some "Z"
  ∧ compilerError
      (state (after (receive (codeMessage "zzz.js" "Z")) failedAfterCompiled))
    = None
  ∧ effects (receive (codeMessage "zzz.js" "Z")) failedAfterCompiled =
    [RunApplication
       (<["zzz.js" := "Z"]> (<["a.js" := "A"]> (<["b.js" := "B"]> ∅))) "a.js"].
Proof.
  repeat split; vm_compute; reflexivity.
Qed.

(** [unknown_response_is_handled] at a success for the undeclared
    [zzz.js]. *)
Lemma unknown_response_is_handled_witness :
  completion (receive (codeMessage "zzz.js" "Z")) fullyCompiled = Normal tt
  ∧ effects (receive (codeMessage "zzz.js" "Z")) fullyCompiled =
    [RunApplication
       (<["zzz.js" := "Z"]> (playerCache fullyCompiled)) "a.js"].
Proof.
  assert (∀ f, f ∈ Object_keys (files (props fullyCompiled)) →
            filename (codeMessage "zzz.js" "Z") ≠ f
            ∧ filename (codeMessage "zzz.js" "Z") ≠ getTranspilerId f)
    as Hunknown.
  { intros f Hf. change (f ∈ ["a.js"; "b.js"]) in Hf.
    apply elem_of_cons in Hf as [->|Hf];
      [|apply list_elem_of_singleton in Hf as ->]; split; discriminate. }
  assert (type (codeMessage "zzz.js" "Z") = "error" →
          is_Some (error (codeMessage "zzz.js" "Z"))) as Hwf
    by discriminate.
  assert (Forall plainName (Object_keys (files (props fullyCompiled))))
    as Hplain
    by (repeat apply Forall_cons_2; try apply Forall_nil_2; reflexivity).
  destruct (unknown_response_is_handled plainErrorDetails fullyCompiled
              (codeMessage "zzz.js" "Z") Hunknown eq_refl Hplain Hwf eq_refl)
    as (Hdone & Hcode & _).
  split; [exact Hdone|].
  destruct (Hcode eq_refl) as (_ & _ & _ & Heff & _). exact Heff.
Defined.

(** [empty_output_blocks_run] at an empty result for [b.js]. *)
Lemma empty_output_blocks_run_witness :
  "b.js" ∈ Object_keys (files (props halfCompiled))
  ∧ playerCache (after (receive (codeMessage "b.js" "")) halfCompiled)
      !! "b.js" = Some ""
  ∧ effects (receive (codeMessage "b.js" "")) halfCompiled = [].
Proof.
  assert ("b.js" ∈ Object_keys (files (props halfCompiled))) as Hin
    by (apply list_elem_of_further, list_elem_of_here).
  destruct (empty_output_blocks_run plainErrorDetails halfCompiled
              (codeMessage "b.js" "") eq_refl eq_refl eq_refl)
    as (Hcached & _ & Hempty).
  split; [exact Hin|]. split; [exact Hcached|].
  exact (Hempty eq_refl Hin).
Defined.

(** C10 does not hold as stated: with [a.js] and [b.js] compiled, a
    successful response with empty code for the undeclared [zzz.js] is
    written to the player cache and runs the application. *)
Lemma empty_result_for_undeclared_file_runs :
  Object_keys (files (props fullyCompiled)) = ["a.js"; "b.js"]
  ∧ playerCache (after (receive (codeMessage "zzz.js" "")) fullyCompiled)
      !! "zzz.js" = Some ""
  ∧ effects (receive (codeMessage "zzz.js" "")) fullyCompiled =
    [RunApplication
       (<["zzz.js" := ""]> (<["a.js" := "A"]> (<["b.js" := "B"]> ∅))) "a.js"].
Proof.
  split; [reflexivity|]. split; vm_compute; reflexivity.
Qed.

(** A file taken out of [props.files] stays in the player cache and
    travels to the player with the next run. *)
Example removed_file_stays_cached :
  runs (deliver plainErrorDetails
          [Render oneFileProps; WorkerMessage (codeMessage "a.js" "A2")]
          fullyCompiled).2 =
  [(<["a.js" := "A2"]> (<["b.js" := "B"]> ∅), "a.js")].
Proof. vm_compute. reflexivity. Qed.

(** Editing [a.js] once everything is compiled posts it again for both
    panes, and its new result runs the application again. *)
Example edit_runs_again :
  deliver plainErrorDetails
    [CodeChange "export default 3"; WorkerMessage (codeMessage "a.js" "A3")]
    fullyCompiled
  = ((deliver plainErrorDetails
        [CodeChange "export default 3"; WorkerMessage (codeMessage "a.js" "A3")]
        fullyCompiled).1,
     [PostMessage (mkRequest "a.js" "export default 3" (Some true));
      PostMessage (mkRequest "@babel-a.js" "export default 3" None);
      OnChange (<["a.js" := "export default 3"]>
                  (<["b.js" := "export default 2"]> ∅));
      RunApplication (<["a.js" := "A3"]> (<["b.js" := "B"]> ∅)) "a.js"]).
Proof. vm_compute. reflexivity. Qed.

(** Without a player pane nothing is posted for the player; should a
    player result for the declared file arrive all the same, the write is
    done, the readiness test passes and the call on the missing player
    throws. *)
Example run_without_player_throws :
  effects (componentDidMount true) (constructor noPlayerProps) =
    [PostMessage (mkRequest "@babel-a.js" "export default 1" None)]
  ∧ completion (receive (codeMessage "a.js" "A")) (mounted noPlayerProps)
    = Throw TypeError
  ∧ playerCache (after (receive (codeMessage "a.js" "A")) (mounted noPlayerProps))
      !! "a.js" = Some "A"
  ∧ effects (receive (codeMessage "a.js" "A")) (mounted noPlayerProps) = [].
Proof. repeat split; vm_compute; reflexivity. Qed.

(** ** Instances of the further properties *)

(** [mount_caches_every_source] at the two sample files. *)
Lemma mount_caches_every_source_witness :
  NoDup (Object_keys (files (props (constructor sampleProps))))
  ∧ codeCache (after (componentDidMount true) (constructor sampleProps))
      !! "b.js" = Some "export default 2".
Proof.
  assert (NoDup (Object_keys (files (props (constructor sampleProps)))))
    as Hnd.
  { apply NoDup_cons_2; [|apply NoDup_singleton].
    intros Hin. apply list_elem_of_singleton in Hin. discriminate. }
  split; [exact Hnd|].
  destruct (mount_caches_every_source (constructor sampleProps) Hnd)
    as [Hall _].
  apply Hall; [reflexivity|].
  apply list_elem_of_further, list_elem_of_here.
Defined.


(** [edit_result_reaches_its_pane] at an edit of [a.js]. *)
Lemma edit_result_reaches_its_pane_witness :
  isTranspilerId (activeTab (state (mounted sampleProps))) = false
  ∧ plainName (activeTab (state (mounted sampleProps)))
  ∧ playerCache
      (after (receive (codeMessage "a.js" "A3"))
             (after (onCodeChange "export default 3") (mounted sampleProps)))
      !! "a.js" = Some "A3".
Proof.
  split; [reflexivity|]. split; [reflexivity|].
  destruct (edit_result_reaches_its_pane plainErrorDetails
              (mounted sampleProps) "export default 3" "A3" eq_refl eq_refl)
    as (_ & _ & Hplayer & _).
  exact Hplayer.
Defined.

(** [compiled_set_reruns_on_every_result] at a new result for [a.js]
    followed by one for an undeclared file. *)
Lemma compiled_set_reruns_on_every_result_witness :
  everyFileTransformed (files (props fullyCompiled)) (playerCache fullyCompiled)
    = true
  ∧ length (runs (deliver plainErrorDetails
                    (WorkerMessage <$> [codeMessage "a.js" "A2";
                                        codeMessage "zzz.js" "Z"])
                    fullyCompiled).2) = 2%nat.
Proof.
  assert (everyFileTransformed (files (props fullyCompiled))
            (playerCache fullyCompiled) = true) as Hr
    by (vm_compute; reflexivity).
  split; [exact Hr|].
  assert (Forall playerSuccess [codeMessage "a.js" "A2";
                                codeMessage "zzz.js" "Z"]) as Hmsgs.
  { repeat apply Forall_cons_2; try apply Forall_nil_2;
      (split; [reflexivity|split; [reflexivity|discriminate]]). }
  destruct (compiled_set_reruns_on_every_result plainErrorDetails
              fullyCompiled _ eq_refl Hr Hmsgs) as [Hcount _].
  exact Hcount.
Defined.

(** [empty_file_set_runs_on_any_success] at an empty result. *)
Lemma empty_file_set_runs_on_any_success_witness :
  files (props (mounted noFileProps)) = []
  ∧ effects (receive (codeMessage "index.js" "")) (mounted noFileProps)
    = [RunApplication (<["index.js" := ""]> ∅) "index.js"].
Proof.
  split; [reflexivity|]. unfold effects.
  destruct (empty_file_set_runs_on_any_success plainErrorDetails
              (mounted noFileProps) (codeMessage "index.js" "")
              eq_refl eq_refl eq_refl eq_refl) as [-> _].
  vm_compute. reflexivity.
Defined.

(** [marker_named_file_never_runs] at a file called
    [@babel-polyfill.js]. *)
Lemma marker_named_file_never_runs_witness :
  isTranspilerId "@babel-polyfill.js" = true
  ∧ runs (deliver plainErrorDetails
            (WorkerMessage <$> [codeMessage "@babel-polyfill.js" "P"])
            (mounted markerProps)).2 = []
  ∧ playerCache
      (deliver plainErrorDetails
         (WorkerMessage <$> [codeMessage "@babel-polyfill.js" "P"])
         (mounted markerProps)).1 !! "@babel-polyfill.js" = None.
Proof.
  split; [reflexivity|].
  assert ("@babel-polyfill.js" ∈ Object_keys (files (props (mounted markerProps))))
    as Hin by apply list_elem_of_here.
  destruct (marker_named_file_never_runs plainErrorDetails
              (mounted markerProps) "@babel-polyfill.js"
              [codeMessage "@babel-polyfill.js" "P"] Hin eq_refl eq_refl)
    as [Hruns Hcache].
  split; [exact Hruns|]. rewrite Hcache. reflexivity.
Defined.

(** [player_response_spares_transpiler] at the result for [b.js]. *)
Lemma player_response_spares_transpiler_witness :
  isTranspilerId (filename (codeMessage "b.js" "B")) = false
  ∧ renderTranspiler (after (receive (codeMessage "b.js" "B")) halfCompiled)
    = renderTranspiler halfCompiled.
Proof.
  split; [reflexivity|].
  destruct (player_response_spares_transpiler plainErrorDetails halfCompiled
              (codeMessage "b.js" "B") eq_refl) as (_ & _ & Hpane).
  exact Hpane.
Defined.

(** [transpiler_pane_shows_result_of_its_tab] at a transpiler result for
    [b.js], looked at from the tab of [b.js]. *)
Lemma transpiler_pane_shows_result_of_its_tab_witness :
  transpiler_value
    (renderTranspiler
       (after (onClickTab "b.js")
              (after (receive (codeMessage "@babel-b.js" "T")) halfCompiled)))
  = Some "T".
Proof.
  rewrite (transpiler_pane_shows_result_of_its_tab plainErrorDetails
             halfCompiled (codeMessage "@babel-b.js" "T") "b.js" "b.js"
             eq_refl eq_refl).
  reflexivity.
Defined.

(** [success_shows_runtime_error] at a new result for [a.js] while a
    runtime error is pending. *)
Lemma success_shows_runtime_error_witness :
  status_text
    (renderEditor (after (receive (codeMessage "a.js" "A2"))
                         crashedAfterCompiled))
  = "ReferenceError: x is not defined".
Proof.
  destruct (success_shows_runtime_error plainErrorDetails crashedAfterCompiled
              (codeMessage "a.js" "A2") eq_refl) as [Hstatus _].
  rewrite Hstatus. vm_compute. reflexivity.
Defined.

(** [failure_shows_compiler_error] at a failure for [a.js] followed by a
    runtime error and the start of a run. *)
Lemma failure_shows_compiler_error_witness :
  status_text
    (renderEditor
       (deliver plainErrorDetails
          [PlayerError "ReferenceError: x is not defined"; PlayerRun]
          (after (receive (errorMessage "a.js" "SyntaxError: Unexpected token (1:8)"))
                 fullyCompiled)).1)
  = "SyntaxError: Unexpected token (1:8)".
Proof.
  assert (Forall (λ ev, ev = PlayerRun ∨ ∃ m, ev = PlayerError m)
            [PlayerError "ReferenceError: x is not defined"; PlayerRun])
    as Hevs.
  { apply Forall_cons_2; [right; by eexists|].
    apply Forall_cons_2; [by left | apply Forall_nil_2]. }
  destruct (failure_shows_compiler_error plainErrorDetails fullyCompiled
              (errorMessage "a.js" "SyntaxError: Unexpected token (1:8)")
              (mkErrorObject "SyntaxError: Unexpected token (1:8)")
              _ eq_refl eq_refl Hevs) as [Hstatus _].
  exact Hstatus.
Defined.

(** [deliver_keeps_to_files] at the two sample files, compiled with an
    edit in between. *)
Lemma deliver_keeps_to_files_witness :
  (<["b.js" := "B"]> (<["a.js" := "A"]> ∅), "a.js")
    ∈ runs (deliver plainErrorDetails
              [WorkerMessage (codeMessage "a.js" "A");
               CodeChange "export default 3";
               WorkerMessage (codeMessage "b.js" "B")]
              (mounted sampleProps)).2
  ∧ dom (<["b.js" := "B"]> (<["a.js" := "A"]> (∅ : gmap string string)))
    =@{gset string} list_to_set (Object_keys (files sampleProps)).
Proof.
  assert ((<["b.js" := "B"]> (<["a.js" := "A"]> ∅), "a.js")
            ∈ runs (deliver plainErrorDetails
                      [WorkerMessage (codeMessage "a.js" "A");
                       CodeChange "export default 3";
                       WorkerMessage (codeMessage "b.js" "B")]
                      (mounted sampleProps)).2) as Hin.
  { replace (runs _)
      with [(<["b.js" := "B"]> (<["a.js" := "A"]> (∅ : gmap string string)),
             "a.js")]
      by (vm_compute; reflexivity).
    apply list_elem_of_here. }
  split; [exact Hin|].
  refine (deliver_keeps_to_files plainErrorDetails (files sampleProps) _
            (mounted sampleProps) _ eq_refl _ _ _ "a.js" Hin).
  - repeat apply Forall_cons_2; try apply Forall_nil_2; reflexivity.
  - replace (dom (playerCache (mounted sampleProps)))
      with (∅ : gset string) by (vm_compute; reflexivity).
    intros f Hf. by apply elem_of_empty in Hf.
  - apply Forall_cons_2.
    { intros _ _. apply list_elem_of_here. }
    apply Forall_cons_2; [exact I|].
    apply Forall_cons_2; [|apply Forall_nil_2].
    intros _ _. apply list_elem_of_further, list_elem_of_here.
Defined.

(** [runtime_error_shows_until_next_run] after both files compiled. *)
Lemma runtime_error_shows_until_next_run_witness :
  compilerError (state fullyCompiled) = None
  ∧ status_text (renderEditor crashedAfterCompiled)
    = "ReferenceError: x is not defined".
Proof.
  split; [reflexivity|].
  destruct (runtime_error_shows_until_next_run plainErrorDetails fullyCompiled
              "ReferenceError: x is not defined" eq_refl) as [Hstatus _].
  exact Hstatus.
Defined.

(** [editor_opens_with_declared_source] at an edit of [a.js], a click on
    [b.js] and a click back on [a.js]. *)
Lemma editor_opens_with_declared_source_witness :
  codeCache
    (deliver plainErrorDetails
       [CodeChange "export default 3"; ClickTab "b.js"; ClickTab "a.js"]
       (mounted sampleProps)).1 !! "a.js" = Some "export default 3"
  ∧ editor_initialValue
      (renderEditor
         (deliver plainErrorDetails
            [CodeChange "export default 3"; ClickTab "b.js"; ClickTab "a.js"]
            (mounted sampleProps)).1)
    = Own "export default 1".
Proof.
  split; [vm_compute; reflexivity|].
  assert (Forall (λ ev, ∀ p, ev ≠ Render p)
            [CodeChange "export default 3"; ClickTab "b.js"; ClickTab "a.js"])
    as Hevs by (repeat apply Forall_cons_2; try apply Forall_nil_2;
                discriminate).
  destruct (editor_opens_with_declared_source plainErrorDetails _
              (mounted sampleProps) Hevs) as [Hvalue _].
  rewrite Hvalue. vm_compute. reflexivity.
Defined.

(** A declared file called [constructor] passes the readiness test before
    it is compiled, by the member every object inherits: the result for
    [a.js] alone runs the application, with [a.js] as the only key. *)
Example inherited_member_counts_as_compiled :
  Object_keys (files (props (mounted memberProps))) = ["a.js"; "constructor"]
  ∧ effects (receive (codeMessage "a.js" "A")) (mounted memberProps)
    = [RunApplication (<["a.js" := "A"]> ∅) "a.js"].
Proof. split; vm_compute; reflexivity. Qed.

(** A pane name that [render] does not know makes rendering throw; no
    player is mounted. *)
Example unknown_pane_throws :
  completion (render unknownPaneProps) (constructor unknownPaneProps)
    = Throw TypeError
  ∧ refs_player (after (render unknownPaneProps) (constructor unknownPaneProps))
    = false.
Proof. split; reflexivity. Qed.
